(** * sentineleof: orbit validity resolution and selection

    A shallow embedding of the decision logic of [eof/scihubclient.py] and
    [eof/download.py]: the interval-covering selector [lastval_cover], the
    link deduplicator [_dedupe_links], the precise-window filter
    [_pick_precise_file] and the two tiered orchestrators
    [ScihubGnssClient.query_orbit_by_dt] and [download_eofs].

    Conventions of the embedding.
    - A naive [datetime.datetime] is the integer number of microseconds since
      the proleptic epoch; a [datetime.timedelta] is a number of microseconds.
      Comparison of datetimes is comparison of integers, [.date()] is the
      day number (floor division by the length of a day).
    - A Python exception is a value of [exn]; a call that may raise returns a
      [result].
    - Code with effects (catalogue queries, HTTP requests, the file system,
      the log) runs in the monad [M W], a state monad over a world [W] whose
      state survives a raised exception. *)

From Stdlib Require Import ZArith List String Ascii Bool Lia Permutation Sorted.
Import ListNotations.
Open Scope string_scope.
Open Scope list_scope.
Open Scope Z_scope.

(* ===================================================================== *)
(** ** Exceptions and results *)

Inductive exn : Type :=
| IndexError
| TypeError
| AssertionError
| ValueError (msg : string)
| ValidityError                 (* scihubclient.ValidityError(ValueError) *)
| HTTPError (status : Z)        (* requests.HTTPError, from raise_for_status *)
| ExternalError (what : string) (* raised by a collaborator: network, server *).

(** [except ValueError] also catches the subclass [ValidityError]. *)
Definition is_ValueError (e : exn) : bool :=
  match e with
  | ValueError _ | ValidityError => true
  | _ => false
  end.

Inductive result (A : Type) : Type :=
| Ok (a : A)
| Raise (e : exn).
Arguments Ok {A} a.
Arguments Raise {A} e.

Definition result_bind {A B} (r : result A) (k : A -> result B) : result B :=
  match r with
  | Ok a => k a
  | Raise e => Raise e
  end.

(** A list comprehension whose element expression may raise: elements are
    evaluated left to right and the first exception aborts the whole. *)
Fixpoint result_map {A B} (f : A -> result B) (l : list A) : result (list B) :=
  match l with
  | [] => Ok []
  | x :: l' =>
      result_bind (f x) (fun y =>
      result_bind (result_map f l') (fun ys => Ok (y :: ys)))
  end.

(* ===================================================================== *)
(** ** datetime *)

Module Datetime.

Definition datetime := Z.
Definition timedelta := Z.

Definition us_per_second : Z := 1000000.
Definition us_per_minute : Z := 60 * us_per_second.
Definition us_per_hour : Z := 60 * us_per_minute.
Definition us_per_day : Z := 24 * us_per_hour.

(** [datetime.timedelta(days=d, hours=h, minutes=m)] *)
Definition mk_timedelta (days hours minutes : Z) : timedelta :=
  days * us_per_day + hours * us_per_hour + minutes * us_per_minute.

(** [dt.date()]: the calendar day, as a day number. Two datetimes have equal
    [.date()] exactly when they fall on the same calendar day. *)
Definition date (dt : datetime) : Z := dt / us_per_day.

(** Days from the epoch 0001-01-01 (day 0) to the civil date [y]-[m]-[d] of
    the proleptic Gregorian calendar. *)
Definition days_before_year (y : Z) : Z :=
  let y' := y - 1 in
  y' * 365 + y' / 4 - y' / 100 + y' / 400.

Definition is_leap (y : Z) : bool :=
  ((y mod 4 =? 0) && negb (y mod 100 =? 0)) || (y mod 400 =? 0).

Definition days_in_month (y m : Z) : Z :=
  if m =? 2 then (if is_leap y then 29 else 28)
  else if (m =? 4) || (m =? 6) || (m =? 9) || (m =? 11) then 30
  else 31.

Fixpoint days_before_month_aux (y : Z) (n : nat) : Z :=
  match n with
  | O => 0
  | S n' => days_before_month_aux y n' + days_in_month y (Z.of_nat n)
  end.

(** Days of year [y] before the first of month [m] (1..12). *)
Definition days_before_month (y m : Z) : Z :=
  days_before_month_aux y (Z.to_nat (m - 1)).

Definition ymd_to_ord (y m d : Z) : Z :=
  days_before_year y + days_before_month y m + (d - 1).

(** [datetime.datetime(y, m, d, hh, mm, ss)] *)
Definition mk_datetime (y m d hh mm ss : Z) : datetime :=
  ymd_to_ord y m d * us_per_day
  + hh * us_per_hour + mm * us_per_minute + ss * us_per_second.

Definition valid_fields (y m d hh mm ss : Z) : bool :=
  (1 <=? y) && (y <=? 9999) && (1 <=? m) && (m <=? 12)
  && (1 <=? d) && (d <=? days_in_month y m)
  && (0 <=? hh) && (hh <=? 23) && (0 <=? mm) && (mm <=? 59)
  && (0 <=? ss) && (ss <=? 59).

(** The range of [datetime.datetime]: [datetime.min] is 0001-01-01 00:00:00
    and [datetime.max] is 9999-12-31 23:59:59.999999. Sums and differences
    are exact here; in Python [dt + td] and [dt - td] raise [OverflowError]
    when the result leaves this range, so a statement about a computed
    datetime holds of the source where that datetime is [in_range]. *)
Definition datetime_min : datetime := mk_datetime 1 1 1 0 0 0.
Definition datetime_max : datetime :=
  mk_datetime 9999 12 31 23 59 59 + 999999.

Definition in_range (t : datetime) : Prop :=
  datetime_min <= t <= datetime_max.

End Datetime.

(* ===================================================================== *)
(** ** products.SentinelOrbit *)

(** The attributes of a [SentinelOrbit] that the two modules read. The class
    lives in [eof/products.py]. *)
Record SentinelOrbit : Type := mkSentinelOrbit {
  filename : string;
  mission : string;
  orbit_type : string;
  created_time : Datetime.datetime;
  start_time : Datetime.datetime;
  stop_time : Datetime.datetime
}.

(** Modelled from the spec: the [date] property of [SentinelOrbit] (defined in
    [eof/products.py]) is the validity-start date at day granularity. *)
Definition orbit_date (o : SentinelOrbit) : Z := Datetime.date (start_time o).

(* ===================================================================== *)
(** ** list.sort(key=..., reverse=True) *)

(** Python's [list.sort] is stable, also with [reverse=True]: the result is in
    descending key order and elements with equal keys keep their original
    relative order. That determines the result, so any stable sort models it;
    this one inserts from the right. *)
Section Sort.
Context {A : Type} (key : A -> Z).

Fixpoint insert_reverse (x : A) (l : list A) : list A :=
  match l with
  | [] => [x]
  | y :: l' => if key x <? key y then y :: insert_reverse x l' else x :: l
  end.

Definition sort_reverse (l : list A) : list A :=
  fold_right insert_reverse [] l.

(** The first element of greatest key. *)
Fixpoint first_max (l : list A) : option A :=
  match l with
  | [] => None
  | x :: l' =>
      match first_max l' with
      | None => Some x
      | Some m => if key x <? key m then Some m else Some x
      end
  end.

Definition descending (l : list A) : Prop :=
  StronglySorted (fun a b => key a >= key b) l.
End Sort.

(* ===================================================================== *)
(** ** scihubclient.lastval_cover *)

(** [item.start_time <= t0 and item.stop_time >= t1] *)
Definition covers (t0 t1 : Datetime.datetime) (item : SentinelOrbit) : bool :=
  (start_time item <=? t0) && (stop_time item >=? t1).

(** Full coverage of [[t0, t1]], as a proposition. *)
Definition fully_covers (t0 t1 : Datetime.datetime) (item : SentinelOrbit)
  : Prop :=
  start_time item <= t0 /\ stop_time item >= t1.

Definition lastval_cover (t0 t1 : Datetime.datetime) (data : list SentinelOrbit)
  : result string :=
  let candidates := filter (covers t0 t1) data in
  match candidates with
  | [] => Raise ValidityError
  | _ :: _ =>
      let candidates := sort_reverse created_time candidates in
      match candidates with
      | c :: _ => Ok (filename c)
      | [] => Raise IndexError
      end
  end.

(* ===================================================================== *)
(** ** The state-and-exception monad *)

Definition M (W A : Type) : Type := W -> result A * W.

Definition ret {W A} (a : A) : M W A := fun w => (Ok a, w).

Definition raise {W A} (e : exn) : M W A := fun w => (Raise e, w).

Definition bind {W A B} (c : M W A) (k : A -> M W B) : M W B :=
  fun w =>
    match c w with
    | (Ok a, w') => k a w'
    | (Raise e, w') => (Raise e, w')
    end.

Definition lift {W A} (r : result A) : M W A := fun w => (r, w).

Definition modify {W} (f : W -> W) : M W unit := fun w => (Ok tt, f w).

Definition gets {W A} (f : W -> A) : M W A := fun w => (Ok (f w), w).

(** [try: c except E as e: h e], where [E] is the class recognised by
    [catches]. *)
Definition try_except {W A} (c : M W A) (catches : exn -> bool)
    (h : exn -> M W A) : M W A :=
  fun w =>
    match c w with
    | (Ok a, w') => (Ok a, w')
    | (Raise e, w') => if catches e then h e w' else (Raise e, w')
    end.

Declare Scope monad_scope.
Delimit Scope monad_scope with monad.
Notation "x <- c ;; k" := (bind c (fun x => k))
  (at level 61, c at next level, right associativity) : monad_scope.
Notation "' pat <- c ;; k" := (bind c (fun x => match x with pat => k end))
  (at level 61, pat pattern, c at next level, right associativity) : monad_scope.
Notation "c ;;; k" := (bind c (fun _ => k))
  (at level 61, right associativity) : monad_scope.
Open Scope monad_scope.

(* ===================================================================== *)
(** ** The collaborators outside the two modules *)

(** [SentinelOrbit(name)], the constructor of [eof/products.py]: parses a file
    name and raises [ValueError] when the name is malformed. *)
Class ProductsModule : Type := {
  new_SentinelOrbit : string -> result SentinelOrbit
}.

(** [Base.__init__] of [eof/products.py] stores the name it was given in the
    [filename] attribute. *)
Definition keeps_filename (P : ProductsModule) : Prop :=
  forall name o, new_SentinelOrbit name = Ok o -> filename o = name.

Section GetValidityInfo.
Context {P : ProductsModule}.

Definition get_validity_info (products : list string)
  : result (list SentinelOrbit) :=
  result_map new_SentinelOrbit products.
End GetValidityInfo.

(* ===================================================================== *)
(** ** Python dictionaries, in insertion order *)

Section Dict.
Context {V : Type}.

Definition dict := list (string * V).

(** [d[k] = v] *)
Fixpoint dict_set (d : dict) (k : string) (v : V) : dict :=
  match d with
  | [] => [(k, v)]
  | (k', v') :: d' =>
      if String.eqb k' k then (k', v) :: d' else (k', v') :: dict_set d' k v
  end.

(** [d.update(other)] *)
Definition dict_update (d other : dict) : dict :=
  fold_left (fun acc kv => dict_set acc (fst kv) (snd kv)) other d.

Definition dict_values (d : dict) : list V := map snd d.
End Dict.
Arguments dict V : clear implicits.

(* ===================================================================== *)
(** ** scihubclient.ScihubGnssClient *)

Module Scihub.

(** One entry of the catalogue's answer; the client reads ["identifier"]. *)
Record product : Type := mkProduct {
  identifier : string;
  producttype : string
}.

(** The keyword arguments of [SentinelAPI.query]. *)
Record query_params : Type := mkQuery {
  q_producttype : string;
  q_platformserialidentifier : string;
  q_beginposition : option Datetime.datetime * option Datetime.datetime;
  q_endposition : option Datetime.datetime * option Datetime.datetime
}.

(** [sentinelsat.SentinelAPI.query]: the catalogue's answer, an ordered
    dictionary from uuid to product (the uuids of one answer are distinct),
    or a raised error. *)
Class SentinelAPI : Type := {
  api_query : query_params -> result (dict product)
}.

Inductive log_record : Type :=
| LogDebugQuery (q : query_params)
| LogWarningNotFound (remaining_dates : list (string * Datetime.datetime)).

Record world : Type := mkWorld {
  queries : list query_params;   (* the calls made to the catalogue *)
  log : list log_record
}.

Definition emit (r : log_record) : M world unit :=
  modify (fun w => mkWorld (queries w) (log w ++ [r])).

Definition call_api {API : SentinelAPI} (q : query_params)
  : M world (dict product) :=
  modify (fun w => mkWorld (queries w ++ [q]) (log w)) ;;;
  lift (api_query q).

Definition T0 : Datetime.timedelta := Datetime.mk_timedelta 1 0 0.
Definition T1 : Datetime.timedelta := Datetime.mk_timedelta 1 0 0.

Definition assert {W} (b : bool) : M W unit :=
  if b then ret tt else raise AssertionError.

(** [satellite_id[1:]] *)
Definition tail_string (s : string) : string :=
  match s with
  | EmptyString => EmptyString
  | String _ s' => s'
  end.

Section Client.
Context {P : ProductsModule} {API : SentinelAPI}.

Definition query_orbit (t0 t1 : Datetime.datetime) (satellite_id : string)
    (product_type : string) : M world (dict product) :=
  assert (String.eqb satellite_id "S1A" || String.eqb satellite_id "S1B") ;;;
  assert (String.eqb product_type "AUX_POEORB"
          || String.eqb product_type "AUX_RESORB") ;;;
  let query_params :=
    mkQuery product_type (tail_string satellite_id)
            (None, Some t1) (Some t0, None) in
  emit (LogDebugQuery query_params) ;;;
  call_api query_params.

Definition _select_orbit (products : dict product)
    (t0 t1 : Datetime.datetime) : result (dict product) :=
  match products with
  | [] => Ok []
  | _ :: _ =>
      let orbit_products := map identifier (dict_values products) in
      result_bind (get_validity_info orbit_products) (fun validity_info =>
      result_bind (lastval_cover t0 t1 validity_info) (fun product_id =>
      Ok (filter (fun kv => String.eqb (identifier (snd kv)) product_id)
                 products)))
  end.

(** [_select_orbit(products, dt, dt + 1 minute) if products else None] *)
Definition select_if_any (products : dict product) (dt : Datetime.datetime)
  : result (option (dict product)) :=
  match products with
  | [] => Ok None
  | _ :: _ =>
      result_bind
        (_select_orbit products dt (dt + Datetime.mk_timedelta 0 0 1))
        (fun r => Ok (Some r))
  end.

(** Truth value of [result]: [None] and the empty dictionary are false. *)
Definition truthy (r : option (dict product)) : bool :=
  match r with
  | Some (_ :: _) => true
  | _ => false
  end.

Definition result_dict (r : option (dict product)) : dict product :=
  match r with
  | Some d => d
  | None => []
  end.

(** Vocabulary for statements: the two queries made for a request. *)
Definition valid_satellite (satellite_id : string) : bool :=
  String.eqb satellite_id "S1A" || String.eqb satellite_id "S1B".

Definition precise_query (t0_margin t1_margin : Datetime.timedelta)
    (mission : string) (dt : Datetime.datetime) : query_params :=
  mkQuery "AUX_POEORB" (tail_string mission)
          (None, Some (dt + t1_margin)) (Some (dt - t0_margin), None).

Definition restituted_query (mission : string) (dt : Datetime.datetime)
  : query_params :=
  mkQuery "AUX_RESORB" (tail_string mission)
          (None, Some (dt + Datetime.mk_timedelta 0 1 0))
          (Some (dt - Datetime.mk_timedelta 0 1 0), None).

(** Both queries of a request come back empty. *)
Definition unanswered (t0m t1m : Datetime.timedelta)
    (request : string * Datetime.datetime) : Prop :=
  valid_satellite (fst request) = true
  /\ api_query (precise_query t0m t1m (fst request) (snd request)) = Ok []
  /\ api_query (restituted_query (fst request) (snd request)) = Ok [].

(** The world after a call of [query_orbit] that sends [q]. *)
Definition asked (q : query_params) (w : world) : world :=
  mkWorld (queries w ++ [q]) (log w ++ [LogDebugQuery q]).

(** The local variables of the loop of [query_orbit_by_dt]. *)
Record locals : Type := mkLocals {
  remaining_dates : list (string * Datetime.datetime);
  query : dict product
}.

(** The [else] branch of an iteration, under the comment [try with RESORB]:
    the restituted query, its selection, and the bookkeeping that follows
    it. *)
Definition try_resorb (st : locals) (mission : string) (dt : Datetime.datetime)
  : M world locals :=
  products <- query_orbit (dt - Datetime.mk_timedelta 0 1 0)
                          (dt + Datetime.mk_timedelta 0 1 0)
                          mission "AUX_RESORB" ;;
  result <- lift (select_if_any products dt) ;;
  if truthy result then
    ret (mkLocals (remaining_dates st)
                  (dict_update (query st) (result_dict result)))
  else
    ret (mkLocals (remaining_dates st ++ [(mission, dt)]) (query st)).

(** One iteration of [for mission, dt in zip(missions, orbit_dts)]. *)
Definition query_orbit_by_dt_step (orbit_type : string)
    (t0_margin t1_margin : Datetime.timedelta)
    (st : locals) (mission : string) (dt : Datetime.datetime)
  : M world locals :=
  result <-
    (if String.eqb orbit_type "precise" then
       products <- query_orbit (dt - t0_margin) (dt + t1_margin)
                               mission "AUX_POEORB" ;;
       lift (select_if_any products dt)
     else ret None) ;;
  if truthy result then
    ret (mkLocals (remaining_dates st)
                  (dict_update (query st) (result_dict result)))
  else
    try_resorb st mission dt.

Fixpoint query_orbit_by_dt_loop (orbit_type : string)
    (t0_margin t1_margin : Datetime.timedelta)
    (requests : list (string * Datetime.datetime)) (st : locals)
  : M world locals :=
  match requests with
  | [] => ret st
  | (mission, dt) :: rest =>
      st' <- query_orbit_by_dt_step orbit_type t0_margin t1_margin
                                    st mission dt ;;
      query_orbit_by_dt_loop orbit_type t0_margin t1_margin rest st'
  end.

Definition query_orbit_by_dt (missions : list string)
    (orbit_dts : list Datetime.datetime) (orbit_type : string)
    (t0_margin t1_margin : Datetime.timedelta) : M world (dict product) :=
  st <- query_orbit_by_dt_loop orbit_type t0_margin t1_margin
                               (combine missions orbit_dts)
                               (mkLocals [] []) ;;
  (match remaining_dates st with
   | [] => ret tt
   | _ :: _ => emit (LogWarningNotFound (remaining_dates st))
   end) ;;;
  ret (query st).
End Client.

End Scihub.

(* ===================================================================== *)
(** ** download *)

Module Download.

Definition PRECISE_ORBIT : string := "POEORB".
Definition RESTITUTED_ORBIT : string := "RESORB".
Definition DT_FMT : string := "%Y/%m/%d".

Record response : Type := mkResponse {
  status_code : Z;
  text : string;
  content : string
}.

(** What the module calls outside itself: [requests.get], the link finder
    of [eof/parsing.py] applied to a page, and the formatting of datetimes
    ([strftime] and [str]). [eof_links] gives the links of a page in the
    order in which the loop over [parser.eof_links] meets them; that order is
    the link finder's and need not be the order of the page. *)
Class Archive : Type := {
  requests_get : string -> result response;
  eof_links : string -> list string;
  strftime : Datetime.datetime -> string -> string;
  str_datetime : Datetime.datetime -> string
}.

Inductive log_record : Type :=
| InfoSearching (url : string)
| WarningPreciseNotAvailable (search_dt : Datetime.datetime)
| WarningNoPreciseFound (mission : option string) (day : string)
| WarningMessage (msg : string)
| WarningSkipping (day : string)
| InfoExists (link : string)
| InfoDownloading (link : string)
| InfoSaving (fname : string)
| InfoFinished (day : Z) (cur_filenames : option (list string)).

Record world : Type := mkWorld {
  requests : list string;            (* the urls fetched, in order *)
  files : list (string * string);    (* the file system: path, content *)
  log : list log_record
}.

Definition emit (r : log_record) : M world unit :=
  modify (fun w => mkWorld (requests w) (files w) (log w ++ [r])).

Definition get {A : Archive} (url : string) : M world response :=
  modify (fun w => mkWorld (requests w ++ [url]) (files w) (log w)) ;;;
  lift (requests_get url).

(** [response.raise_for_status()] *)
Definition raise_for_status (r : response) : M world unit :=
  if (400 <=? status_code r) && (status_code r <? 600)
  then raise (HTTPError (status_code r)) else ret tt.

(** [os.path.isfile(fname)] *)
Definition isfile (fname : string) : M world bool :=
  gets (fun w => existsb (fun f => String.eqb (fst f) fname) (files w)).

(** [with open(fname, "wb") as f: f.write(data)] *)
Definition write_file (fname data : string) : M world unit :=
  modify (fun w =>
    mkWorld (requests w)
            ((fname, data)
               :: filter (fun f => negb (String.eqb (fst f) fname)) (files w))
            (log w)).

(** [s.split("/")] *)
Fixpoint split_slash (s : string) : list string :=
  match s with
  | EmptyString => [EmptyString]
  | String c s' =>
      if Ascii.eqb c "/"%char then EmptyString :: split_slash s'
      else match split_slash s' with
           | h :: t => String c h :: t
           | [] => [String c EmptyString]
           end
  end.

(** [link.split("/")[-1]] *)
Definition basename (link : string) : string :=
  last (split_slash link) EmptyString.

(** [os.path.join(a, b)] of [posixpath] *)
Definition ends_with_slash (s : string) : bool :=
  match split_slash s with
  | _ :: _ :: _ => String.eqb (basename s) EmptyString
  | _ => false
  end.

Definition path_join (a b : string) : string :=
  if String.prefix "/" b then b
  else if String.eqb a EmptyString || ends_with_slash a then a ++ b
  else a ++ "/" ++ b.

(** [link.startswith(mission)]; a [None] prefix is a [TypeError]. *)
Definition startswith (link : string) (mission : option string)
  : result bool :=
  match mission with
  | Some m => Ok (String.prefix m link)
  | None => Raise TypeError
  end.

(** [[url + link for link in eof_links if link.startswith(mission)]] *)
Fixpoint mission_links (url : string) (mission : option string)
    (eof_links : list string) : result (list string) :=
  match eof_links with
  | [] => Ok []
  | link :: rest =>
      result_bind (startswith link mission) (fun keep =>
      result_bind (mission_links url mission rest) (fun links =>
      Ok (if keep then (url ++ link)%string :: links else links)))
  end.

Definition show_mission (mission : option string) : string :=
  match mission with
  | Some m => m
  | None => "None"
  end.

Section Module_.
Context {P : ProductsModule} {A : Archive}.

Definition base_url (orbit_type : string) (dt : string) : string :=
  "http://aux.sentinel1.eo.esa.int/" ++ orbit_type ++ "/" ++ dt ++ "/".

(** The messages of the two [ValueError]s of [eof_list]. *)
Definition not_available_msg (search_dt : Datetime.datetime) : string :=
  "Orbits not avilable yet for " ++ str_datetime search_dt.

Definition no_files_msg (start_dt : Datetime.datetime)
    (mission : option string) (url : string) : string :=
  "No EOF files found for " ++ strftime start_dt DT_FMT ++ " on "
  ++ show_mission mission ++ " at " ++ url.

(** The body of [eof_list]; [self] stands for the recursive call. *)
Definition eof_list_body
    (self : string -> M world (list string * string))
    (start_dt : Datetime.datetime) (mission : option string)
    (orbit_type : string) : M world (list string * string) :=
  let validity_creation_diff :=
    if String.eqb orbit_type PRECISE_ORBIT
    then Datetime.mk_timedelta 20 12 0
    else Datetime.mk_timedelta 0 4 0 in
  let search_dt := start_dt + validity_creation_diff in
  let url := base_url orbit_type (strftime search_dt DT_FMT) in
  emit (InfoSearching url) ;;;
  response <- get url ;;
  if status_code response =? 404 then
    if String.eqb orbit_type PRECISE_ORBIT then
      emit (WarningPreciseNotAvailable search_dt) ;;;
      self RESTITUTED_ORBIT
    else
      raise (ValueError (not_available_msg search_dt))
  else
    raise_for_status response ;;;
    links <- lift (mission_links url mission (eof_links (text response))) ;;
    if (Z.of_nat (List.length links) <? 1) then
      if String.eqb orbit_type PRECISE_ORBIT then
        emit (WarningNoPreciseFound mission (strftime start_dt DT_FMT)) ;;;
        self RESTITUTED_ORBIT
      else
        raise (ValueError (no_files_msg start_dt mission url))
    else ret (links, orbit_type).

(** [eof_list] calls itself only from the precise tier and then with the
    restituted tier, which does not recurse: two levels unfold it. *)
Definition eof_list (start_dt : Datetime.datetime)
    (mission : option string) (orbit_type : string)
  : M world (list string * string) :=
  eof_list_body
    (eof_list_body (fun _ => raise (ExternalError "RecursionError"))
                   start_dt mission)
    start_dt mission orbit_type.

(** The loop of [_dedupe_links]: [orb1] is bound once, before the loop. *)
Fixpoint _dedupe_links_loop (orb1 : SentinelOrbit) (rest : list string)
    (out : list string) : result (list string) :=
  match rest with
  | [] => Ok out
  | link :: rest' =>
      result_bind (new_SentinelOrbit (basename link)) (fun o =>
      if negb (orbit_date o =? orbit_date orb1)
      then _dedupe_links_loop orb1 rest' (out ++ [link])
      else _dedupe_links_loop orb1 rest' out)
  end.

Definition _dedupe_links (links : list string) : result (list string) :=
  match links with
  | [] => Raise IndexError
  | first :: rest =>
      let out := [first] in
      result_bind (new_SentinelOrbit (basename first)) (fun orb1 =>
      _dedupe_links_loop orb1 rest out)
  end.

(** The test of [_pick_precise_file] on one parsed link. *)
Definition straddles (sent_date : Datetime.datetime) (so : SentinelOrbit)
  : bool :=
  (Datetime.date (start_time so)
     =? Datetime.date (sent_date - Datetime.mk_timedelta 1 0 0))
  && (Datetime.date (stop_time so)
        =? Datetime.date (sent_date + Datetime.mk_timedelta 1 0 0)).

Fixpoint _pick_precise_file_loop (links : list string)
    (sent_date : Datetime.datetime) (out : list string)
  : result (list string) :=
  match links with
  | [] => Ok out
  | link :: rest =>
      result_bind (new_SentinelOrbit (basename link)) (fun so =>
      if straddles sent_date so
      then _pick_precise_file_loop rest sent_date (out ++ [link])
      else _pick_precise_file_loop rest sent_date out)
  end.

Definition _pick_precise_file (links : list string)
    (sent_date : Datetime.datetime) : result (list string) :=
  _pick_precise_file_loop links sent_date [].

(** Vocabulary for statements about [eof_list]: the page read for a tier and
    what it offers to a mission. *)
Definition search_dt_of (orbit_type : string) (start_dt : Datetime.datetime)
  : Datetime.datetime :=
  start_dt + (if String.eqb orbit_type PRECISE_ORBIT
              then Datetime.mk_timedelta 20 12 0
              else Datetime.mk_timedelta 0 4 0).

Definition page_url (orbit_type : string) (start_dt : Datetime.datetime)
  : string :=
  base_url orbit_type (strftime (search_dt_of orbit_type start_dt) DT_FMT).

Inductive page : Type :=
| Listed (links : list string)   (* at least one link of the mission *)
| NotFound                       (* status 404 *)
| NoLinks                        (* no link of the mission *)
| Failed (e : exn).

Definition read_page (mission : option string) (url : string) : page :=
  match requests_get url with
  | Raise e => Failed e
  | Ok response =>
      if status_code response =? 404 then NotFound
      else if (400 <=? status_code response) && (status_code response <? 600)
      then Failed (HTTPError (status_code response))
      else match mission_links url mission (eof_links (text response)) with
           | Raise e => Failed e
           | Ok [] => NoLinks
           | Ok (link :: links) => Listed (link :: links)
           end
  end.

Definition unavailable (p : page) : bool :=
  match p with
  | NotFound | NoLinks => true
  | _ => false
  end.

(** The world after the request for a page, and after a log record. *)
Definition searched (url : string) (w : world) : world :=
  mkWorld (requests w ++ [url]) (files w) (log w ++ [InfoSearching url]).

Definition logged (r : log_record) (w : world) : world :=
  mkWorld (requests w) (files w) (log w ++ [r]).

(** Vocabulary for statements about lists of links. *)
Definition parses (link : string) : Prop :=
  exists o, new_SentinelOrbit (basename link) = Ok o.

(** The validity-start day of the orbit file a link points to. *)
Definition link_date (link : string) : option Z :=
  match new_SentinelOrbit (basename link) with
  | Ok o => Some (orbit_date o)
  | Raise _ => None
  end.

Definition date_differs (day : Z) (link : string) : bool :=
  match link_date link with
  | Some d => negb (d =? day)
  | None => false
  end.

Definition link_straddles (sent_date : Datetime.datetime) (link : string)
  : bool :=
  match new_SentinelOrbit (basename link) with
  | Ok so => straddles sent_date so
  | Raise _ => false
  end.

(** The deduplicator in the spec's words: keep the first candidate, then
    keep a candidate only if its validity-start day differs from that of
    the last candidate kept. *)
Fixpoint spec_dedupe_scan (last_kept : Z) (rest : list string)
  : list string :=
  match rest with
  | [] => []
  | link :: rest' =>
      if date_differs last_kept link
      then link :: spec_dedupe_scan
                     (match link_date link with
                      | Some d => d
                      | None => last_kept
                      end) rest'
      else spec_dedupe_scan last_kept rest'
  end.

Definition spec_dedupe (links : list string) : result (list string) :=
  match links with
  | [] => Raise IndexError
  | first :: rest =>
      match link_date first with
      | Some d => Ok (first :: spec_dedupe_scan d rest)
      | None => Raise (ValueError EmptyString)
      end
  end.

(** The file a link is saved to. *)
Definition target (save_dir link : string) : string :=
  path_join save_dir (basename link).

(** The download loop of [_download_and_write]. *)
Fixpoint save_links (save_dir : string) (cur_links : list string)
    (saved_files : list string) : M world (list string) :=
  match cur_links with
  | [] => ret saved_files
  | link :: rest =>
      let fname := path_join save_dir (basename link) in
      exists_ <- isfile fname ;;
      if exists_ : bool then
        emit (InfoExists link) ;;;
        ret [fname]
      else
        emit (InfoDownloading link) ;;;
        response <- get link ;;
        raise_for_status response ;;;
        emit (InfoSaving fname) ;;;
        write_file fname (content response) ;;;
        save_links save_dir rest (saved_files ++ [fname])
  end.

(** The result is [None] where the function ends in a bare [return]. *)
Definition _download_and_write (mission : option string)
    (dt : Datetime.datetime) (save_dir : string)
  : M world (option (list string)) :=
  found <-
    try_except
      (r <- eof_list dt mission PRECISE_ORBIT ;; ret (Some r))
      is_ValueError
      (fun e =>  (* 0 found for date *)
         emit (WarningMessage
                 (match e with
                  | ValueError msg => msg
                  | _ => EmptyString
                  end)) ;;;
         emit (WarningSkipping (strftime dt "%Y-%m-%d")) ;;;
         ret None) ;;
  match found with
  | None => ret None
  | Some (cur_links, orbit_type) =>
      cur_links <- lift (_dedupe_links cur_links) ;;
      cur_links <-
        (if String.eqb orbit_type PRECISE_ORBIT
         then lift (_pick_precise_file cur_links dt)
         else ret cur_links) ;;
      saved_files <- save_links save_dir cur_links [] ;;
      ret (Some saved_files)
  end.
(** [pool.apply_async(f, args)] followed later by [result.get()]: the task
    runs to completion and its outcome, also a raised exception, is kept
    in the result object; [get] returns or re-raises it. Tasks are run
    here one after the other, in the order of submission. *)
Definition apply_async {T} (task : M world T) : M world (result T) :=
  fun w => let (r, w') := task w in (Ok r, w').

Fixpoint submit_all (save_dir : string)
    (requests : list (option string * Datetime.datetime))
  : M world (list (result (option (list string)) * Datetime.datetime)) :=
  match requests with
  | [] => ret []
  | (mission, dt) :: rest =>
      r <- apply_async (_download_and_write mission dt save_dir) ;;
      rs <- submit_all save_dir rest ;;
      ret ((r, dt) :: rs)
  end.

(** [filenames.extend(cur_filenames)]; [None] is not iterable. *)
Definition extend (filenames : list string)
    (cur_filenames : option (list string)) : result (list string) :=
  match cur_filenames with
  | Some fs => Ok (filenames ++ fs)
  | None => Raise TypeError
  end.

(** [for result in result_dt_dict: ...] *)
Fixpoint collect
    (results : list (result (option (list string)) * Datetime.datetime))
    (filenames : list string) : M world (list string) :=
  match results with
  | [] => ret filenames
  | (result, dt) :: rest =>
      cur_filenames <- lift result ;;
      emit (InfoFinished (Datetime.date dt) cur_filenames) ;;;
      filenames <- lift (extend filenames cur_filenames) ;;
      collect rest filenames
  end.

Definition dquote : string := String (ascii_of_nat 34) EmptyString.

Definition known_mission (m : string) : bool :=
  String.eqb m "S1A" || String.eqb m "S1B".

Definition is_empty {T} (l : list T) : bool :=
  match l with
  | [] => true
  | _ :: _ => false
  end.

(** [download_eofs(orbit_dts, missions, save_dir=save_dir)], called without
    [sentinel_file] and with [orbit_dts] already datetimes; an absent
    [missions] is the empty list. *)
Definition download_eofs (orbit_dts : list Datetime.datetime)
    (missions : list string) (save_dir : string) : M world (list string) :=
  if negb (is_empty missions)
     && forallb (fun m => negb (known_mission m)) missions
  then raise (ValueError ("missions argument must be " ++ dquote ++ "S1A"
                         ++ dquote ++ " or " ++ dquote ++ "S1B" ++ dquote))
  else if negb (is_empty missions)
          && negb (Nat.eqb (List.length missions) (List.length orbit_dts))
  then raise (ValueError "missions arg must be same length as orbit_dts")
  else
    let requests :=
      if is_empty missions
      then map (fun dt => (None, dt)) orbit_dts   (* itertools.repeat(None) *)
      else combine (map Some missions) orbit_dts in
    result_dt_dict <- submit_all save_dir requests ;;
    collect result_dt_dict [].
End Module_.

End Download.

(* ===================================================================== *)
(** ** The precise-tier pipeline in the spec's words *)

Section SpecPipeline.
Context {P : ProductsModule}.

End SpecPipeline.

(* ===================================================================== *)
(** ** A reading of orbit file names *)

Module ProductsModel.

Definition digit (c : ascii) : option Z :=
  let n := Z.of_nat (nat_of_ascii c) in
  if (48 <=? n) && (n <=? 57) then Some (n - 48) else None.

Fixpoint digits (s : string) (acc : Z) : option Z :=
  match s with
  | EmptyString => Some acc
  | String c s' =>
      match digit c with
      | Some d => digits s' (10 * acc + d)
      | None => None
      end
  end.

Definition field (s : string) (pos len : nat) : option Z :=
  let f := substring pos len s in
  if Nat.eqb (String.length f) len then digits f 0 else None.

(** A date-time in the fixed format [%Y%m%dT%H%M%S], 15 characters. *)
Definition parse_time (s : string) : option Datetime.datetime :=
  match field s 0 4, field s 4 2, field s 6 2,
        field s 9 2, field s 11 2, field s 13 2 with
  | Some y, Some m, Some d, Some hh, Some mm, Some ss =>
      if String.eqb (substring 8 1 s) "T"
         && Nat.eqb (String.length s) 15
         && Datetime.valid_fields y m d hh mm ss
      then Some (Datetime.mk_datetime y m d hh mm ss)
      else None
  | _, _, _, _, _, _ => None
  end.

(** Modelled from the spec: the constructor [SentinelOrbit] of
    [eof/products.py], which is not part of the sources read here. A name
    is made of the mission code, [_OPER_AUX_], the product tier marker
    ([POEORB] or [RESORB]), [_OPOD_], the creation time, [_V], the validity
    start, [_] and the validity stop, all date-times in the fixed format;
    any other name is malformed. The instance stores the name as given. *)
Definition parse_orbit (name : string) : result SentinelOrbit :=
  let mission := substring 0 3 name in
  let tier := substring 13 6 name in
  match parse_time (substring 25 15 name),
        parse_time (substring 42 15 name),
        parse_time (substring 58 15 name) with
  | Some created, Some start, Some stop =>
      if (String.eqb mission "S1A" || String.eqb mission "S1B")
         && String.eqb (substring 3 10 name) "_OPER_AUX_"
         && (String.eqb tier "POEORB" || String.eqb tier "RESORB")
         && String.eqb (substring 19 6 name) "_OPOD_"
         && String.eqb (substring 40 2 name) "_V"
         && String.eqb (substring 57 1 name) "_"
      then Ok (mkSentinelOrbit name mission tier created start stop)
      else Raise (ValueError ("Invalid SentinelOrbit filename: " ++ name))
  | _, _, _ => Raise (ValueError ("Invalid SentinelOrbit filename: " ++ name))
  end.

#[export] Instance products : ProductsModule :=
  {| new_SentinelOrbit := parse_orbit |}.

End ProductsModel.

(* ===================================================================== *)
(** ** Stand-ins for the collaborators *)

(** Formatting of datetimes, for the two formats the code uses. *)
Module Format.

Fixpoint find_year (fuel : nat) (y ord : Z) : Z :=
  match fuel with
  | O => y
  | S fuel' =>
      if Datetime.days_before_year (y + 1) <=? ord
      then find_year fuel' (y + 1) ord
      else y
  end.

Definition year_of (ord : Z) : Z := find_year 40 (ord / 366 + 1) ord.

Fixpoint find_month (fuel : nat) (y m day_of_year : Z) : Z * Z :=
  match fuel with
  | O => (m, day_of_year + 1)
  | S fuel' =>
      if Datetime.days_in_month y m <=? day_of_year
      then find_month fuel' y (m + 1) (day_of_year - Datetime.days_in_month y m)
      else (m, day_of_year + 1)
  end.

Definition ymd_of (dt : Datetime.datetime) : Z * Z * Z :=
  let ord := Datetime.date dt in
  let y := year_of ord in
  let '(m, d) := find_month 11 y 1 (ord - Datetime.days_before_year y) in
  (y, m, d).

Definition digit_char (d : Z) : ascii := ascii_of_nat (48 + Z.to_nat (d mod 10)).

Definition pad2 (n : Z) : string :=
  String (digit_char (n / 10)) (String (digit_char n) EmptyString).

Definition pad4 (n : Z) : string := pad2 (n / 100) ++ pad2 (n mod 100).

Definition ymd_string (sep : string) (dt : Datetime.datetime) : string :=
  let '(y, m, d) := ymd_of dt in
  pad4 y ++ sep ++ pad2 m ++ sep ++ pad2 d.

Definition strftime (dt : Datetime.datetime) (fmt : string) : string :=
  if String.eqb fmt "%Y/%m/%d" then ymd_string "/" dt
  else if String.eqb fmt "%Y-%m-%d" then ymd_string "-" dt
  else fmt.

Definition str_datetime (dt : Datetime.datetime) : string :=
  let us := dt mod Datetime.us_per_day in
  ymd_string "-" dt ++ " " ++ pad2 (us / Datetime.us_per_hour)
  ++ ":" ++ pad2 (us / Datetime.us_per_minute mod 60)
  ++ ":" ++ pad2 (us / Datetime.us_per_second mod 60).

End Format.

(** A catalogue that answers a query with the products of the asked type and
    platform whose validity window meets the asked positions. *)
Module Catalogue.
Import Scihub.

Definition at_most (bound : option Datetime.datetime) (t : Datetime.datetime)
  : bool :=
  match bound with
  | Some b => t <=? b
  | None => true
  end.

Definition at_least (bound : option Datetime.datetime) (t : Datetime.datetime)
  : bool :=
  match bound with
  | Some b => b <=? t
  | None => true
  end.

Definition matches (q : query_params) (p : product) : bool :=
  match ProductsModel.parse_orbit (identifier p) with
  | Ok o =>
      String.eqb (producttype p) (q_producttype q)
      && String.eqb (tail_string (mission o)) (q_platformserialidentifier q)
      && at_least (fst (q_beginposition q)) (start_time o)
      && at_most (snd (q_beginposition q)) (start_time o)
      && at_least (fst (q_endposition q)) (stop_time o)
      && at_most (snd (q_endposition q)) (stop_time o)
  | Raise _ => false
  end.

Definition api (catalogue : dict product) : SentinelAPI :=
  {| api_query q := Ok (filter (fun kv => matches q (snd kv)) catalogue) |}.

Definition entry (uuid name : string) : string * product :=
  (uuid, mkProduct name ("AUX_" ++ substring 13 6 name)).

End Catalogue.

(** An archive given by its pages: a url is answered with the status and the
    links of its page, and with 404 when there is no such page. The text of a
    page is its list of links, one per line. *)
Module Pages.
Import Download.

Definition newline : ascii := ascii_of_nat 10.

Fixpoint lines (s : string) : list string :=
  match s with
  | EmptyString => []
  | String c s' =>
      if Ascii.eqb c newline then EmptyString :: lines s'
      else match lines s' with
           | h :: t => String c h :: t
           | [] => [String c EmptyString]
           end
  end.

Definition page_text (links : list string) : string :=
  String.concat (String newline EmptyString) links.

(** The files a page lists are served next to it; as content a file has its
    own name. *)
Fixpoint find_file (url : string) (links : list string) (url' : string)
  : option response :=
  match links with
  | [] => None
  | link :: rest =>
      if String.eqb (url ++ link) url'
      then Some (mkResponse 200 link link)
      else find_file url rest url'
  end.

Fixpoint find_page (pages : list (string * (Z * list string))) (url : string)
  : response :=
  match pages with
  | [] => mkResponse 404 EmptyString EmptyString
  | (u, (status, links)) :: rest =>
      if String.eqb u url
      then mkResponse status (page_text links) (page_text links)
      else match find_file u links url with
           | Some r => r
           | None => find_page rest url
           end
  end.

Definition archive (pages : list (string * (Z * list string))) : Archive :=
  {| requests_get url := Ok (find_page pages url);
     eof_links := lines;
     strftime := Format.strftime;
     str_datetime := Format.str_datetime |}.

End Pages.

(* ===================================================================== *)
(** ** Sample data *)

Module Samples.
Import ProductsModel.

Definition orbit_of (name : string) : SentinelOrbit :=
  match parse_orbit name with
  | Ok o => o
  | Raise _ => mkSentinelOrbit name "" "" 0 0 0
  end.

(** The precise orbit file of 2021-02-26, published on 2021-03-10 and again
    on 2021-03-15. *)
Definition poe_0226 : string :=
  "S1A_OPER_AUX_POEORB_OPOD_20210310T121945_V20210225T225942_20210227T005942.EOF".
Definition poe_0226_new : string :=
  "S1A_OPER_AUX_POEORB_OPOD_20210315T121945_V20210225T225942_20210227T005942.EOF".
(** The precise orbit files of the day before and of the day after. *)
Definition poe_0225 : string :=
  "S1A_OPER_AUX_POEORB_OPOD_20210309T121945_V20210224T225942_20210226T005942.EOF".
Definition poe_0227 : string :=
  "S1A_OPER_AUX_POEORB_OPOD_20210311T121945_V20210226T225942_20210228T005942.EOF".

(** Two files created at the same second whose windows both hold the first
    minute of 2021-02-26. *)
Definition tie_a : string :=
  "S1A_OPER_AUX_RESORB_OPOD_20210226T040000_V20210225T225942_20210226T015942.EOF".
Definition tie_b : string :=
  "S1A_OPER_AUX_RESORB_OPOD_20210226T040000_V20210225T215942_20210226T005942.EOF".
(** Created an hour before them. *)
Definition tie_old : string :=
  "S1A_OPER_AUX_RESORB_OPOD_20210226T030000_V20210225T205942_20210226T005942.EOF".

(** Links as [eof_list] builds them: the page's url, then the file name. *)
Definition page_0318 : string :=
  "http://aux.sentinel1.eo.esa.int/POEORB/2021/03/18/".
Definition link_0225 : string := page_0318 ++ poe_0225.
Definition link_0226 : string := page_0318 ++ poe_0226.
Definition link_0227 : string := page_0318 ++ poe_0227.

(** A listing of one page: the file of validity day 2021-02-24, then two
    files of validity day 2021-02-25, then one of 2021-02-24 again. *)
Definition listed_0224 : string := page_0318 ++
  "S1A_OPER_AUX_POEORB_OPOD_20210318T101438_V20210224T225942_20210226T005942.EOF".
Definition listed_0225 : string := page_0318 ++
  "S1A_OPER_AUX_POEORB_OPOD_20210318T121438_V20210225T225942_20210227T005942.EOF".
Definition listed_0225_again : string := page_0318 ++
  "S1A_OPER_AUX_POEORB_OPOD_20210318T141438_V20210225T225942_20210227T005942.EOF".
Definition listed_0224_again : string := page_0318 ++
  "S1A_OPER_AUX_POEORB_OPOD_20210318T161438_V20210224T225942_20210226T005942.EOF".

(** Restituted files around noon of 2021-02-26, as a page lists them. *)
Definition res_noon : string :=
  "S1A_OPER_AUX_RESORB_OPOD_20210226T153000_V20210226T094500_20210226T133000.EOF".
Definition res_noon_s1b : string :=
  "S1B_OPER_AUX_RESORB_OPOD_20210226T153500_V20210226T095000_20210226T133500.EOF".
Definition res_page_0226 : string :=
  "http://aux.sentinel1.eo.esa.int/RESORB/2021/02/26/".
Definition poe_page_0319 : string :=
  "http://aux.sentinel1.eo.esa.int/POEORB/2021/03/19/".

(** An archive without the precise page of 2021-03-19. *)
Definition archive_restituted_only : Download.Archive :=
  Pages.archive [(res_page_0226, (200, [res_noon_s1b; res_noon]))].

Definition empty_world : Download.world := Download.mkWorld [] [] [].

(** An archive whose precise page of 2021-03-19 lists three files of
    mission S1A: one of validity day 2021-02-24 and two of 2021-02-25. *)
Definition listing_0319 : list string :=
  ["S1A_OPER_AUX_POEORB_OPOD_20210319T101438_V20210224T225942_20210226T005942.EOF";
   "S1A_OPER_AUX_POEORB_OPOD_20210319T121438_V20210225T225942_20210227T005942.EOF";
   "S1A_OPER_AUX_POEORB_OPOD_20210319T141438_V20210225T225942_20210227T005942.EOF"].
Definition archive_precise : Download.Archive :=
  Pages.archive [(poe_page_0319, (200, listing_0319))].

(** An archive with neither page. *)
Definition archive_empty : Download.Archive := Pages.archive [].

(** Catalogues. *)
Definition catalogue_empty : Scihub.SentinelAPI := Catalogue.api [].
Definition catalogue_republished : Scihub.SentinelAPI :=
  Catalogue.api [Catalogue.entry "uuid-1" poe_0226;
                 Catalogue.entry "uuid-2" poe_0226_new].
(** The precise file of 2021-02-26 is not published yet; the file of the day
    before and a restituted file are. *)
Definition catalogue_day_before : Scihub.SentinelAPI :=
  Catalogue.api [Catalogue.entry "uuid-3" poe_0225;
                 Catalogue.entry "uuid-4" res_noon].
Definition catalogue_restituted : Scihub.SentinelAPI :=
  Catalogue.api [Catalogue.entry "uuid-4" res_noon].

(** Only the precise file of the day before is published. *)
Definition catalogue_stale : Scihub.SentinelAPI :=
  Catalogue.api [Catalogue.entry "uuid-3" poe_0225].

Definition quiet : Scihub.world := Scihub.mkWorld [] [].

Definition t_0226 : Datetime.datetime := Datetime.mk_datetime 2021 2 26 0 0 0.
Definition t_0226_0001 : Datetime.datetime :=
  Datetime.mk_datetime 2021 2 26 0 1 0.
Definition noon_0226 : Datetime.datetime :=
  Datetime.mk_datetime 2021 2 26 12 0 0.
End Samples.

(* ===================================================================== *)
(** ** More sample data *)

Module MoreSamples.

(** An answer of the catalogue with one name that is not an orbit file. *)
Definition answer_with_stray : dict Scihub.product :=
  [Catalogue.entry "uuid-1" Samples.poe_0226;
   ("uuid-9", Scihub.mkProduct "README.txt" "AUX_POEORB");
   Catalogue.entry "uuid-2" Samples.poe_0226_new].


End MoreSamples.

(* ===================================================================== *)
(** ** scihubclient.ASFClient *)

Module ASF.
Import Download.

Definition url : string := "https://s1qc.asf.alaska.edu/aux_poeorb/".

Section Client.
Context {P : ProductsModule} {A : Archive}.

(** [get_eof_list(dt)]: the page is read without a look at its status and
    every link on it is made a [SentinelOrbit]. *)
Definition get_eof_list (dt : Datetime.datetime)
  : M world (list SentinelOrbit) :=
  resp <- get url ;;
  lift (result_map new_SentinelOrbit (eof_links (text resp))).

(** [get_download_url(dt)]: the body binds [filename] and ends; the value
    of the call is [None]. *)
Definition get_download_url (dt : Datetime.datetime)
  : M world (option string) :=
  eofs <- get_eof_list dt ;;
  filename <- lift (lastval_cover dt dt eofs) ;;
  ret None.
End Client.

End ASF.

(* ===================================================================== *)
(** ** More sample pages *)

Module MorePages.



(** The precise page lists a name that is not an orbit file. *)
Definition archive_stray : Download.Archive :=
  Pages.archive [(Samples.poe_page_0319, (200, ["S1A_README.txt"]))].

(** The page of the ASF listing, with two precise files. *)
Definition archive_asf : Download.Archive :=
  Pages.archive [(ASF.url, (200, [Samples.poe_0225; Samples.poe_0226]))].

End MorePages.

(* ===================================================================== *)
(** ** Sample links and worlds *)

Module SampleLinks.



End SampleLinks.

(* ===================================================================== *)
(** ** Requests within the range of [datetime] *)

Module Range.

(** The two datetimes that [_pick_precise_file] computes from its target. *)
Definition filter_target (sent_date : Datetime.datetime) : Prop :=
  Datetime.in_range (sent_date - Datetime.mk_timedelta 1 0 0)
  /\ Datetime.in_range (sent_date + Datetime.mk_timedelta 1 0 0).

(** The start of [eof_list] and the search date of its precise tier; the
    search date of the restituted tier, four hours after the start, lies
    between the two. *)
Definition archive_search (start_dt : Datetime.datetime) : Prop :=
  Datetime.in_range start_dt
  /\ Datetime.in_range (start_dt + Datetime.mk_timedelta 20 12 0).

(** The datetimes that an iteration of [query_orbit_by_dt] computes from a
    request: the bounds of the precise query, those of the restituted query
    and the end of the minute that the selector must find covered. *)
Definition catalogue_request (t0_margin t1_margin : Datetime.timedelta)
    (request : string * Datetime.datetime) : Prop :=
  Datetime.in_range (snd request - t0_margin)
  /\ Datetime.in_range (snd request + t1_margin)
  /\ Datetime.in_range (snd request - Datetime.mk_timedelta 0 1 0)
  /\ Datetime.in_range (snd request + Datetime.mk_timedelta 0 1 0)
  /\ Datetime.in_range (snd request + Datetime.mk_timedelta 0 0 1).

End Range.

(** Decides the range conditions of a concrete request. *)
Ltac solve_in_range :=
  repeat split; apply Z.leb_le; vm_compute; reflexivity.

(* ===================================================================== *)
(** * Properties *)

(** ** The stable descending sort *)

Section SortFacts.
Context {A : Type} (key : A -> Z).

Lemma insert_reverse_perm (x : A) (l : list A) :
  Permutation (x :: l) (insert_reverse key x l).
Proof.
  induction l as [|y l IH]; simpl.
  - apply Permutation_refl.
  - destruct (key x <? key y).
    + eapply perm_trans; [apply perm_swap|]. now apply perm_skip.
    + apply Permutation_refl.
Qed.

Lemma sort_reverse_perm (l : list A) : Permutation l (sort_reverse key l).
Proof.
  induction l as [|x l IH]; simpl.
  - constructor.
  - eapply perm_trans; [|apply insert_reverse_perm]. now apply perm_skip.
Qed.

Lemma insert_reverse_descending (x : A) (l : list A) :
  descending key l -> descending key (insert_reverse key x l).
Proof.
  unfold descending. induction 1 as [|y l Hs IH Hy]; simpl.
  - repeat constructor.
  - destruct (Z.ltb_spec (key x) (key y)) as [Hlt|Hge].
    + constructor; [exact IH|].
      rewrite Forall_forall in *. intros z Hz.
      apply (Permutation_in _ (Permutation_sym (insert_reverse_perm x l))) in Hz.
      destruct Hz as [<-|Hz]; [lia | now apply Hy].
    + constructor; [now constructor|].
      constructor; [lia|].
      rewrite Forall_forall in *. intros z Hz. specialize (Hy z Hz). lia.
Qed.

Lemma sort_reverse_descending (l : list A) :
  descending key (sort_reverse key l).
Proof.
  induction l as [|x l IH]; simpl.
  - constructor.
  - now apply insert_reverse_descending.
Qed.

(** Stability: the elements of any one key appear in their original order. *)
Lemma insert_reverse_stable (k : Z) (x : A) (l : list A) :
  descending key l ->
  filter (fun a => key a =? k) (insert_reverse key x l)
  = filter (fun a => key a =? k) (x :: l).
Proof.
  unfold descending. induction 1 as [|y l Hs IH Hy]; [reflexivity|].
  simpl insert_reverse. destruct (Z.ltb_spec (key x) (key y)) as [Hlt|Hge].
  - simpl in *. rewrite IH.
    destruct (Z.eqb_spec (key x) k), (Z.eqb_spec (key y) k);
      try reflexivity; lia.
  - reflexivity.
Qed.

Lemma sort_reverse_stable (k : Z) (l : list A) :
  filter (fun a => key a =? k) (sort_reverse key l)
  = filter (fun a => key a =? k) l.
Proof.
  induction l as [|x l IH]; [reflexivity|].
  simpl sort_reverse.
  rewrite insert_reverse_stable by apply sort_reverse_descending.
  simpl. now rewrite IH.
Qed.

Lemma hd_error_insert_reverse (x : A) (l : list A) :
  hd_error (insert_reverse key x l)
  = Some (match hd_error l with
          | None => x
          | Some y => if key x <? key y then y else x
          end).
Proof.
  destruct l as [|y l]; simpl; [reflexivity|].
  now destruct (key x <? key y).
Qed.

Lemma hd_error_sort_reverse (l : list A) :
  hd_error (sort_reverse key l) = first_max key l.
Proof.
  induction l as [|x l IH]; [reflexivity|].
  simpl sort_reverse. rewrite hd_error_insert_reverse, IH. simpl.
  destruct (first_max key l) as [m|]; [|reflexivity].
  now destruct (key x <? key m).
Qed.

Lemma first_max_None (l : list A) : first_max key l = None -> l = [].
Proof.
  destruct l as [|x l]; [reflexivity|]. simpl.
  destruct (first_max key l) as [m|]; [|discriminate].
  destruct (key x <? key m); discriminate.
Qed.

(** [first_max] splits the list at the earliest element of greatest key. *)
Lemma first_max_split (l : list A) (m : A) :
  first_max key l = Some m ->
  exists pre post,
    l = pre ++ m :: post
    /\ (forall y, In y pre -> key y < key m)
    /\ (forall y, In y post -> key y <= key m).
Proof.
  revert m. induction l as [|x l IH]; intros m; simpl; [discriminate|].
  destruct (first_max key l) as [m'|] eqn:E.
  - destruct (IH m' eq_refl) as (pre & post & -> & Hpre & Hpost).
    destruct (Z.ltb_spec (key x) (key m')) as [Hlt|Hge]; intros [= <-].
    + exists (x :: pre), post. repeat split; [|exact Hpost].
      intros y [<-|Hy]; [exact Hlt | now apply Hpre].
    + exists [], (pre ++ m' :: post). repeat split; [intros y []|].
      intros y Hy. apply in_app_or in Hy.
      destruct Hy as [Hy|[<-|Hy]].
      * specialize (Hpre y Hy). lia.
      * exact Hge.
      * specialize (Hpost y Hy). lia.
  - intros [= <-]. apply first_max_None in E. subst l.
    exists [], []. repeat split; intros y [].
Qed.
End SortFacts.

Lemma filter_split {A : Type} (f : A -> bool) (l a b : list A) (x : A) :
  filter f l = a ++ x :: b ->
  exists a' b',
    l = a' ++ x :: b' /\ filter f a' = a /\ filter f b' = b /\ f x = true.
Proof.
  revert a. induction l as [|y l IH]; intros a H; simpl in H.
  - now destruct a.
  - destruct (f y) eqn:Fy.
    + destruct a as [|a0 a]; simpl in H; injection H as -> H.
      * exists [], l. now repeat split.
      * destruct (IH _ H) as (a' & b' & -> & <- & <- & Fx).
        exists (a0 :: a'), b'. simpl. rewrite Fy. now repeat split.
    + destruct (IH _ H) as (a' & b' & -> & <- & <- & Fx).
      exists (y :: a'), b'. simpl. rewrite Fy. now repeat split.
Qed.

(** ** The selector [lastval_cover] *)

Lemma covers_iff (t0 t1 : Datetime.datetime) (c : SentinelOrbit) :
  covers t0 t1 c = true <-> fully_covers t0 t1 c.
Proof.
  unfold covers, fully_covers.
  rewrite andb_true_iff, Z.leb_le, Z.geb_le. lia.
Qed.

Lemma covers_false_iff (t0 t1 : Datetime.datetime) (c : SentinelOrbit) :
  covers t0 t1 c = false <-> ~ fully_covers t0 t1 c.
Proof.
  rewrite <- covers_iff. now destruct (covers t0 t1 c).
Qed.

(** What the selector computes, in one statement: the answer is the name of
    the covering candidate of greatest creation time that comes first in the
    input, and the only failure is [ValidityError], raised when nothing
    covers. *)
Lemma lastval_cover_spec (t0 t1 : Datetime.datetime) (data : list SentinelOrbit) :
  match lastval_cover t0 t1 data with
  | Ok f =>
      exists pre c post,
        data = pre ++ c :: post /\ f = filename c /\ covers t0 t1 c = true
        /\ (forall y, In y pre -> covers t0 t1 y = true ->
                      created_time y < created_time c)
        /\ (forall y, In y post -> covers t0 t1 y = true ->
                      created_time y <= created_time c)
  | Raise e =>
      e = ValidityError /\ forall c, In c data -> covers t0 t1 c = false
  end.
Proof.
  unfold lastval_cover.
  destruct (filter (covers t0 t1) data) as [|c0 cs] eqn:F.
  - split; [reflexivity|]. intros c Hc.
    destruct (covers t0 t1 c) eqn:E; [|reflexivity].
    assert (In c (filter (covers t0 t1) data)) as Hin
      by (apply filter_In; now split).
    rewrite F in Hin. destruct Hin.
  - pose proof (hd_error_sort_reverse created_time (c0 :: cs)) as Hhd.
    destruct (sort_reverse created_time (c0 :: cs)) as [|c sorted] eqn:S.
    + cbn [hd_error] in Hhd. symmetry in Hhd.
      apply first_max_None in Hhd. discriminate.
    + cbn [hd_error] in Hhd. symmetry in Hhd.
      destruct (first_max_split _ _ _ Hhd) as (a & b & Hab & Ha & Hb).
      rewrite <- F in Hab.
      destruct (filter_split _ _ _ _ _ Hab) as (pre & post & -> & <- & <- & Hc).
      exists pre, c, post. repeat split; [exact Hc| |].
      * intros y Hy Cy. apply Ha. apply filter_In. now split.
      * intros y Hy Cy. apply Hb. apply filter_In. now split.
Qed.

Lemma first_max_In {A : Type} (key : A -> Z) (l : list A) (m : A) :
  first_max key l = Some m -> In m l.
Proof.
  intros H. destruct (first_max_split key l m H) as (pre & post & -> & _).
  apply in_elt.
Qed.

Lemma first_max_app {A : Type} (key : A -> Z) (a b : list A) (c : A) :
  (forall y, In y a -> key y < key c) ->
  (forall y, In y b -> key y <= key c) ->
  first_max key (a ++ c :: b) = Some c.
Proof.
  intros Ha Hb. induction a as [|x a IH]; simpl.
  - destruct (first_max key b) as [m|] eqn:E; [|reflexivity].
    apply first_max_In in E. specialize (Hb m E).
    destruct (Z.ltb_spec (key c) (key m)); [lia | reflexivity].
  - rewrite IH by (intros y Hy; apply Ha; now right).
    specialize (Ha x (or_introl eq_refl)).
    destruct (Z.ltb_spec (key x) (key c)); [reflexivity | lia].
Qed.

Lemma lastval_cover_split (t0 t1 : Datetime.datetime)
    (pre post : list SentinelOrbit) (c : SentinelOrbit) :
  covers t0 t1 c = true ->
  (forall y, In y pre -> covers t0 t1 y = true ->
             created_time y < created_time c) ->
  (forall y, In y post -> covers t0 t1 y = true ->
             created_time y <= created_time c) ->
  lastval_cover t0 t1 (pre ++ c :: post) = Ok (filename c).
Proof.
  intros Hc Hpre Hpost. unfold lastval_cover.
  rewrite filter_app. simpl. rewrite Hc.
  assert (first_max created_time
            (filter (covers t0 t1) pre ++ c :: filter (covers t0 t1) post)
          = Some c) as Hmax.
  { apply first_max_app; intros y Hy; apply filter_In in Hy;
      destruct Hy; auto. }
  rewrite <- hd_error_sort_reverse in Hmax.
  destruct (filter (covers t0 t1) pre ++ c :: filter (covers t0 t1) post)
    as [|x xs] eqn:E.
  - now destruct (filter (covers t0 t1) pre).
  - destruct (sort_reverse created_time (x :: xs)); [discriminate|].
    simpl in Hmax. now injection Hmax as ->.
Qed.

(** C1. For every interval [[t0, t1]] and every list of candidates,
    [lastval_cover] returns (the file name of) a candidate of the input with
    [start_time <= t0] and [stop_time >= t1] whenever the input holds such a
    candidate; it raises [ValidityError] exactly when no candidate of the input
    fully covers the interval, and raises nothing else. A returned name always
    belongs to a fully covering candidate, so partial overlap never
    qualifies. *)
Theorem lastval_cover_full_coverage
    (t0 t1 : Datetime.datetime) (data : list SentinelOrbit) :
  ((exists c, In c data /\ fully_covers t0 t1 c) ->
   exists c, In c data /\ fully_covers t0 t1 c
             /\ lastval_cover t0 t1 data = Ok (filename c))
  /\ (lastval_cover t0 t1 data = Raise ValidityError
      <-> forall c, In c data -> ~ fully_covers t0 t1 c)
  /\ (forall e, lastval_cover t0 t1 data = Raise e -> e = ValidityError)
  /\ (forall f, lastval_cover t0 t1 data = Ok f ->
      exists c, In c data /\ fully_covers t0 t1 c /\ filename c = f).
Proof.
  pose proof (lastval_cover_spec t0 t1 data) as H.
  destruct (lastval_cover t0 t1 data) as [f|e].
  - destruct H as (pre & c & post & -> & -> & Hc & _).
    apply covers_iff in Hc.
    assert (In c (pre ++ c :: post)) as Hin by apply in_elt.
    split; [|split; [|split]].
    + intros _. now exists c.
    + split; [discriminate|]. intros Hno. now destruct (Hno c Hin).
    + discriminate.
    + intros f [= <-]. now exists c.
  - destruct H as [-> Hall].
    split; [|split; [|split]].
    + intros (c & Hin & Hc). apply covers_false_iff in Hc; [easy | now apply Hall].
    + split; [|reflexivity]. intros _ c Hin. apply covers_false_iff. now apply Hall.
    + now intros e [= <-].
    + discriminate.
Qed.

(** The precise file of 2021-02-26 covers the first minute of that day and is
    returned; the file of the day before overlaps an interval that runs past
    its validity stop and is refused. *)
Lemma lastval_cover_full_coverage_witness :
  (exists c,
     In c [Samples.orbit_of Samples.poe_0225; Samples.orbit_of Samples.poe_0226]
     /\ fully_covers Samples.t_0226 Samples.t_0226_0001 c
     /\ lastval_cover Samples.t_0226 Samples.t_0226_0001
          [Samples.orbit_of Samples.poe_0225; Samples.orbit_of Samples.poe_0226]
        = Ok (filename c))
  /\ lastval_cover Samples.t_0226 Samples.noon_0226
       [Samples.orbit_of Samples.poe_0225]
     = Raise ValidityError.
Proof.
  split.
  - apply (proj1 (lastval_cover_full_coverage Samples.t_0226 Samples.t_0226_0001
             [Samples.orbit_of Samples.poe_0225;
              Samples.orbit_of Samples.poe_0226])).
    exists (Samples.orbit_of Samples.poe_0226). split.
    + right. left. reflexivity.
    + split; vm_compute; discriminate.
  - apply (proj2 (proj1 (proj2 (lastval_cover_full_coverage
             Samples.t_0226 Samples.noon_0226
             [Samples.orbit_of Samples.poe_0225])))).
    intros c [<-|[]] [_ Hstop]. vm_compute in Hstop. apply Hstop. reflexivity.
Defined.

(** C6. Among the fully covering candidates the selector sorts by creation
    time, descending, and returns the first: the returned candidate was
    created no earlier than any covering candidate of the input, and of two
    candidates that both cover the interval and differ in creation time the
    later one is returned, whichever comes first in the input. *)
Theorem lastval_cover_latest_created
    (t0 t1 : Datetime.datetime) (data : list SentinelOrbit) :
  (exists sorted,
     Permutation (filter (covers t0 t1) data) sorted
     /\ descending created_time sorted
     /\ lastval_cover t0 t1 data
        = match sorted with
          | c :: _ => Ok (filename c)
          | [] => Raise ValidityError
          end)
  /\ (forall f, lastval_cover t0 t1 data = Ok f ->
      exists c, In c data /\ fully_covers t0 t1 c /\ filename c = f
                /\ forall c', In c' data -> fully_covers t0 t1 c' ->
                              created_time c' <= created_time c)
  /\ (forall a b, fully_covers t0 t1 a -> fully_covers t0 t1 b ->
                  created_time a < created_time b ->
                  lastval_cover t0 t1 [a; b] = Ok (filename b)
                  /\ lastval_cover t0 t1 [b; a] = Ok (filename b)).
Proof.
  split; [|split].
  - exists (sort_reverse created_time (filter (covers t0 t1) data)).
    split; [apply sort_reverse_perm|].
    split; [apply sort_reverse_descending|].
    unfold lastval_cover.
    destruct (filter (covers t0 t1) data) as [|c0 cs] eqn:F; [reflexivity|].
    destruct (sort_reverse created_time (c0 :: cs)) eqn:S; [|reflexivity].
    pose proof (sort_reverse_perm created_time (c0 :: cs)) as Hp.
    rewrite S in Hp. apply Permutation_sym, Permutation_nil in Hp. discriminate.
  - intros f Hf. pose proof (lastval_cover_spec t0 t1 data) as H.
    rewrite Hf in H. destruct H as (pre & c & post & -> & -> & Hc & Hpre & Hpost).
    exists c. split; [apply in_elt|]. split; [now apply covers_iff|].
    split; [reflexivity|]. intros c' Hin Hc'. apply covers_iff in Hc'.
    apply in_app_or in Hin. destruct Hin as [Hin|[<-|Hin]].
    + specialize (Hpre c' Hin Hc'). lia.
    + lia.
    + now apply Hpost.
  - intros a b Ha Hb Hlt. apply covers_iff in Ha, Hb. split.
    + apply (lastval_cover_split t0 t1 [a] [] b Hb).
      * intros y [<-|[]] _. exact Hlt.
      * intros y [].
    + apply (lastval_cover_split t0 t1 [] [a] b Hb).
      * intros y [].
      * intros y [<-|[]] _. lia.
Qed.

(** The spec's scenario: two files of the same validity window, created on
    2021-03-10 and on 2021-03-15; the one of 2021-03-15 is picked. *)
Lemma lastval_cover_latest_created_witness :
  lastval_cover Samples.t_0226 Samples.t_0226_0001
    [Samples.orbit_of Samples.poe_0226; Samples.orbit_of Samples.poe_0226_new]
  = Ok Samples.poe_0226_new
  /\ lastval_cover Samples.t_0226 Samples.t_0226_0001
       [Samples.orbit_of Samples.poe_0226_new; Samples.orbit_of Samples.poe_0226]
     = Ok Samples.poe_0226_new.
Proof.
  apply (proj2 (proj2 (lastval_cover_latest_created
           Samples.t_0226 Samples.t_0226_0001 [])));
    [split; vm_compute; discriminate ..|reflexivity].
Defined.

(** C10. When several fully covering candidates share the greatest creation
    time, the selector returns the one that comes first in the input: if [c]
    covers, every covering candidate before it was created strictly earlier
    and every covering candidate after it no later, then [c] is the answer.
    The result is a function of the input list alone. *)
Theorem lastval_cover_stable_tie_break
    (t0 t1 : Datetime.datetime) (pre post : list SentinelOrbit)
    (c : SentinelOrbit) :
  fully_covers t0 t1 c ->
  (forall y, In y pre -> fully_covers t0 t1 y ->
             created_time y < created_time c) ->
  (forall y, In y post -> fully_covers t0 t1 y ->
             created_time y <= created_time c) ->
  lastval_cover t0 t1 (pre ++ c :: post) = Ok (filename c).
Proof.
  intros Hc Hpre Hpost. apply lastval_cover_split.
  - now apply covers_iff.
  - intros y Hy Cy. apply Hpre; [exact Hy | now apply covers_iff].
  - intros y Hy Cy. apply Hpost; [exact Hy | now apply covers_iff].
Qed.

(** Two covering files created at the same second, after an older one: the
    answer is whichever of the two is listed first. *)
Lemma lastval_cover_stable_tie_break_witness :
  lastval_cover Samples.t_0226 Samples.t_0226_0001
    ([Samples.orbit_of Samples.tie_old]
       ++ Samples.orbit_of Samples.tie_a :: [Samples.orbit_of Samples.tie_b])
  = Ok Samples.tie_a
  /\ lastval_cover Samples.t_0226 Samples.t_0226_0001
       ([Samples.orbit_of Samples.tie_old]
          ++ Samples.orbit_of Samples.tie_b :: [Samples.orbit_of Samples.tie_a])
     = Ok Samples.tie_b.
Proof.
  split.
  - apply (lastval_cover_stable_tie_break Samples.t_0226 Samples.t_0226_0001
             [Samples.orbit_of Samples.tie_old]
             [Samples.orbit_of Samples.tie_b]
             (Samples.orbit_of Samples.tie_a)).
    + split; vm_compute; discriminate.
    + intros y [<-|[]] _. vm_compute. reflexivity.
    + intros y [<-|[]] _. vm_compute. discriminate.
  - apply (lastval_cover_stable_tie_break Samples.t_0226 Samples.t_0226_0001
             [Samples.orbit_of Samples.tie_old]
             [Samples.orbit_of Samples.tie_a]
             (Samples.orbit_of Samples.tie_b)).
    + split; vm_compute; discriminate.
    + intros y [<-|[]] _. vm_compute. reflexivity.
    + intros y [<-|[]] _. vm_compute. discriminate.
Defined.

(** ** The deduplicator [_dedupe_links] *)

Section DedupeFacts.
Context {P : ProductsModule}.
Import Download.

Lemma parses_link_date (link : string) :
  parses link <-> link_date link <> None.
Proof.
  unfold parses, link_date.
  destruct (new_SentinelOrbit (basename link)) as [o|e]; split.
  - discriminate.
  - intros _. now exists o.
  - now intros [o [=]].
  - now intros [].
Qed.

Lemma _dedupe_links_loop_filter (orb1 : SentinelOrbit)
    (rest out : list string) :
  Forall parses rest ->
  _dedupe_links_loop orb1 rest out
  = Ok (out ++ filter (date_differs (orbit_date orb1)) rest).
Proof.
  intros H. revert out.
  induction H as [|link rest [o Ho] _ IH]; intros out; simpl.
  - now rewrite app_nil_r.
  - unfold date_differs at 1, link_date. rewrite Ho. simpl.
    destruct (negb (orbit_date o =? orbit_date orb1)); rewrite IH.
    + now rewrite <- app_assoc.
    + reflexivity.
Qed.

(** The deduplicator as a filter: every link after the first is compared
    with the first link. *)
Lemma _dedupe_links_filter (first : string) (rest : list string)
    (orb1 : SentinelOrbit) :
  new_SentinelOrbit (basename first) = Ok orb1 ->
  Forall parses rest ->
  _dedupe_links (first :: rest)
  = Ok (first :: filter (date_differs (orbit_date orb1)) rest).
Proof.
  intros H1 Hrest. unfold _dedupe_links. rewrite H1. simpl.
  now rewrite _dedupe_links_loop_filter.
Qed.

Lemma date_differs_iff (day : Z) (link : string) :
  parses link ->
  date_differs day link = true <-> link_date link <> Some day.
Proof.
  intros Hp. apply parses_link_date in Hp. unfold date_differs.
  destruct (link_date link) as [d|]; [|easy].
  destruct (Z.eqb_spec d day) as [->|Hne]; simpl; split; try easy.
  intros _ [=]. easy.
Qed.

Lemma _dedupe_links_loop_prefix (orb1 : SentinelOrbit)
    (rest out out' : list string) :
  _dedupe_links_loop orb1 rest out = Ok out' -> exists t, out' = out ++ t.
Proof.
  revert out. induction rest as [|link rest IH]; intros out; simpl.
  - intros [= <-]. exists []. now rewrite app_nil_r.
  - destruct (new_SentinelOrbit (basename link)) as [o|e]; simpl; [|discriminate].
    destruct (negb (orbit_date o =? orbit_date orb1)); intros H;
      destruct (IH _ H) as [t ->].
    + exists (link :: t). now rewrite <- app_assoc.
    + now exists t.
Qed.

(** C2, as the code has it. The deduplicator keeps the first link and keeps
    each later link if and only if its validity-start day differs from the
    validity-start day of the FIRST link: the orbit compared against is
    bound once, before the loop, and every later link is compared with
    it. *)
Theorem dedupe_links_compares_with_first (first : string)
    (rest : list string) (day1 : Z) :
  link_date first = Some day1 ->
  Forall parses rest ->
  _dedupe_links (first :: rest)
  = Ok (first :: filter (date_differs day1) rest)
  /\ forall link, In link (filter (date_differs day1) rest)
                  <-> In link rest /\ link_date link <> link_date first.
Proof.
  intros H1 Hrest. unfold link_date in H1.
  destruct (new_SentinelOrbit (basename first)) as [orb1|e] eqn:E; [|easy].
  injection H1 as <-. split.
  - now apply _dedupe_links_filter.
  - intros link. rewrite filter_In. unfold link_date at 2. rewrite E.
    split; intros [Hin Hd]; (split; [exact Hin|]);
      rewrite Forall_forall in Hrest;
      now apply (date_differs_iff _ _ (Hrest link Hin)).
Qed.

(** C8. On a non-empty list of well-formed links the deduplicator returns a
    list no longer than its input, and a link whose validity-start day is
    shared by no other link of the input is in the output. *)
Theorem dedupe_links_shrinks_keeps_unique (links : list string) :
  links <> [] ->
  Forall parses links ->
  exists out,
    _dedupe_links links = Ok out
    /\ (List.length out <= List.length links)%nat
    /\ forall i link,
         nth_error links i = Some link ->
         (forall j other, j <> i -> nth_error links j = Some other ->
                          link_date other <> link_date link) ->
         In link out.
Proof.
  intros Hne Hall. destruct links as [|first rest]; [easy|].
  inversion Hall as [|? ? [orb1 H1] Hrest]; subst.
  exists (first :: filter (date_differs (orbit_date orb1)) rest).
  split; [now apply _dedupe_links_filter|]. split.
  - simpl. apply le_n_S, filter_length_le.
  - intros [|i] link Hi Huniq; simpl in Hi.
    + injection Hi as ->. now left.
    + right. apply nth_error_In in Hi. apply filter_In. split; [exact Hi|].
      rewrite Forall_forall in Hrest.
      apply (date_differs_iff _ _ (Hrest link Hi)).
      intros Heq. apply (Huniq 0%nat first); [easy|reflexivity|].
      unfold link_date at 1. now rewrite H1.
Qed.

(** C9. The deduplicator needs a non-empty input: on the empty list the
    access to the first element raises [IndexError]; on a non-empty list of
    well-formed links it returns a list that starts with the first input
    link, and whatever it returns starts with the first input link. *)
Theorem dedupe_links_first_element :
  _dedupe_links [] = Raise IndexError
  /\ (forall first rest,
        parses first -> Forall parses rest ->
        exists tail, _dedupe_links (first :: rest) = Ok (first :: tail))
  /\ (forall links out,
        _dedupe_links links = Ok out ->
        exists first rest tail, links = first :: rest /\ out = first :: tail).
Proof.
  split; [reflexivity|]. split.
  - intros first rest [orb1 H1] Hrest.
    exists (filter (date_differs (orbit_date orb1)) rest).
    now apply _dedupe_links_filter.
  - intros [|first rest] out; simpl; [discriminate|].
    destruct (new_SentinelOrbit (basename first)) as [orb1|e]; simpl;
      [|discriminate].
    intros H. apply _dedupe_links_loop_prefix in H. destruct H as [t ->].
    now exists first, rest, t.
Qed.
End DedupeFacts.

Lemma sample_links_parse :
  Forall (@Download.parses ProductsModel.products)
    [Samples.listed_0224; Samples.listed_0225; Samples.listed_0225_again;
     Samples.listed_0224_again].
Proof.
  repeat constructor; eexists; vm_compute; reflexivity.
Defined.

(** C2 on the code. With days 02-24, 02-25, 02-25 the third link has the day
    of the link kept just before it and is kept all the same, where the scan
    against the last kept link drops it; with days 02-24, 02-25, 02-24 the
    third link differs from the link kept just before it and is dropped,
    where that scan keeps it. *)
Lemma dedupe_links_last_kept_counterexample :
  (@Download._dedupe_links ProductsModel.products
     [Samples.listed_0224; Samples.listed_0225; Samples.listed_0225_again]
   = Ok [Samples.listed_0224; Samples.listed_0225; Samples.listed_0225_again]
   /\ @Download.spec_dedupe ProductsModel.products
        [Samples.listed_0224; Samples.listed_0225; Samples.listed_0225_again]
      = Ok [Samples.listed_0224; Samples.listed_0225])
  /\ (@Download._dedupe_links ProductsModel.products
        [Samples.listed_0224; Samples.listed_0225; Samples.listed_0224_again]
      = Ok [Samples.listed_0224; Samples.listed_0225]
      /\ @Download.spec_dedupe ProductsModel.products
           [Samples.listed_0224; Samples.listed_0225; Samples.listed_0224_again]
         = Ok [Samples.listed_0224; Samples.listed_0225;
               Samples.listed_0224_again]).
Proof.
  repeat split; vm_compute; reflexivity.
Qed.

Lemma dedupe_links_compares_with_first_witness :
  @Download._dedupe_links ProductsModel.products
    [Samples.listed_0224; Samples.listed_0225; Samples.listed_0225_again;
     Samples.listed_0224_again]
  = Ok [Samples.listed_0224; Samples.listed_0225; Samples.listed_0225_again].
Proof.
  apply (proj1 (@dedupe_links_compares_with_first ProductsModel.products
                  Samples.listed_0224
                  [Samples.listed_0225; Samples.listed_0225_again;
                   Samples.listed_0224_again]
                  737844 eq_refl (Forall_inv_tail sample_links_parse))).
Defined.

Lemma dedupe_links_shrinks_keeps_unique_witness :
  exists out,
    @Download._dedupe_links ProductsModel.products
      [Samples.listed_0224; Samples.listed_0225] = Ok out
    /\ (List.length out <= 2)%nat
    /\ In Samples.listed_0225 out.
Proof.
  destruct (@dedupe_links_shrinks_keeps_unique ProductsModel.products
              [Samples.listed_0224; Samples.listed_0225])
    as (out & Hout & Hlen & Hkeep).
  - discriminate.
  - repeat constructor; eexists; vm_compute; reflexivity.
  - exists out. split; [exact Hout|]. split; [exact Hlen|].
    apply (Hkeep 1%nat); [reflexivity|].
    intros [|[|[|j]]] other Hj Hnth; try easy.
    injection Hnth as <-. vm_compute. discriminate.
Defined.

Lemma dedupe_links_first_element_witness :
  exists tail,
    @Download._dedupe_links ProductsModel.products
      [Samples.listed_0224; Samples.listed_0225; Samples.listed_0225_again;
       Samples.listed_0224_again]
    = Ok (Samples.listed_0224 :: tail).
Proof.
  apply (proj1 (proj2 (@dedupe_links_first_element ProductsModel.products))).
  - exact (Forall_inv sample_links_parse).
  - exact (Forall_inv_tail sample_links_parse).
Defined.


(** ** The precise-window filter [_pick_precise_file] *)

Lemma date_minus_day (dt : Datetime.datetime) :
  Datetime.date (dt - Datetime.mk_timedelta 1 0 0) = Datetime.date dt - 1.
Proof.
  unfold Datetime.date, Datetime.mk_timedelta.
  replace (dt - (1 * Datetime.us_per_day + 0 * Datetime.us_per_hour
                 + 0 * Datetime.us_per_minute))
    with (dt + (-1) * Datetime.us_per_day) by lia.
  rewrite Z.div_add by (vm_compute; discriminate). lia.
Qed.

Lemma date_plus_day (dt : Datetime.datetime) :
  Datetime.date (dt + Datetime.mk_timedelta 1 0 0) = Datetime.date dt + 1.
Proof.
  unfold Datetime.date, Datetime.mk_timedelta.
  replace (dt + (1 * Datetime.us_per_day + 0 * Datetime.us_per_hour
                 + 0 * Datetime.us_per_minute))
    with (dt + 1 * Datetime.us_per_day) by lia.
  rewrite Z.div_add by (vm_compute; discriminate). lia.
Qed.

Section PickFacts.
Context {P : ProductsModule} {A : Download.Archive}.
Import Download.

Lemma straddles_iff (sent_date : Datetime.datetime) (so : SentinelOrbit) :
  straddles sent_date so = true
  <-> Datetime.date (start_time so) = Datetime.date sent_date - 1
      /\ Datetime.date (stop_time so) = Datetime.date sent_date + 1.
Proof.
  unfold straddles.
  now rewrite andb_true_iff, !Z.eqb_eq, date_minus_day, date_plus_day.
Qed.

Lemma _pick_precise_file_loop_filter (links out : list string)
    (sent_date : Datetime.datetime) :
  Forall parses links ->
  _pick_precise_file_loop links sent_date out
  = Ok (out ++ filter (link_straddles sent_date) links).
Proof.
  intros H. revert out.
  induction H as [|link links [so Hso] _ IH]; intros out; simpl.
  - now rewrite app_nil_r.
  - unfold link_straddles at 1. rewrite Hso. simpl.
    destruct (straddles sent_date so); rewrite IH.
    + now rewrite <- app_assoc.
    + reflexivity.
Qed.

Lemma _pick_precise_file_filter (links : list string)
    (sent_date : Datetime.datetime) :
  Forall parses links ->
  _pick_precise_file links sent_date
  = Ok (filter (link_straddles sent_date) links).
Proof.
  intros H. unfold _pick_precise_file.
  now rewrite _pick_precise_file_loop_filter.
Qed.

(** What [_download_and_write] does with the links of each tier. *)
Lemma _download_and_write_found (mission : option string)
    (dt : Datetime.datetime) (save_dir : string) (w w1 : world)
    (links : list string) (tier : string) :
  eof_list dt mission PRECISE_ORBIT w = (Ok (links, tier), w1) ->
  _download_and_write mission dt save_dir w
  = (cur_links <- lift (_dedupe_links links) ;;
     cur_links <- (if String.eqb tier PRECISE_ORBIT
                   then lift (_pick_precise_file cur_links dt)
                   else ret cur_links) ;;
     saved_files <- save_links save_dir cur_links [] ;;
     ret (Some saved_files)) w1.
Proof.
  intros H. unfold _download_and_write.
  unfold bind at 1, try_except, bind at 1. rewrite H. reflexivity.
Qed.

(** C4. For a target whose day before and day after are datetimes, the
    precise-window filter keeps a link if and only if the validity start of
    its file falls on the day before the target date and the validity stop on
    the day after it; the kept links are the input links that pass, in their
    order, and every other link is left out. The filter is applied to the
    links of the precise tier only: links that [eof_list] returns under the
    restituted tier go from the deduplicator straight to the download
    loop. *)
Theorem pick_precise_file_exact_window :
  (forall links sent_date,
     Range.filter_target sent_date ->
     Forall parses links ->
     _pick_precise_file links sent_date
     = Ok (filter (link_straddles sent_date) links)
     /\ forall link,
          In link (filter (link_straddles sent_date) links)
          <-> In link links
              /\ exists so,
                   new_SentinelOrbit (basename link) = Ok so
                   /\ Datetime.date (start_time so)
                      = Datetime.date sent_date - 1
                   /\ Datetime.date (stop_time so)
                      = Datetime.date sent_date + 1)
  /\ (forall mission dt save_dir w w1 links,
        Range.archive_search dt ->
        eof_list dt mission PRECISE_ORBIT w
        = (Ok (links, RESTITUTED_ORBIT), w1) ->
        _download_and_write mission dt save_dir w
        = (cur_links <- lift (_dedupe_links links) ;;
           saved_files <- save_links save_dir cur_links [] ;;
           ret (Some saved_files)) w1)
  /\ (forall mission dt save_dir w w1 links,
        Range.archive_search dt ->
        Range.filter_target dt ->
        eof_list dt mission PRECISE_ORBIT w
        = (Ok (links, PRECISE_ORBIT), w1) ->
        _download_and_write mission dt save_dir w
        = (cur_links <- lift (_dedupe_links links) ;;
           cur_links <- lift (_pick_precise_file cur_links dt) ;;
           saved_files <- save_links save_dir cur_links [] ;;
           ret (Some saved_files)) w1).
Proof.
  split; [|split].
  - intros links sent_date _ Hall.
    split; [now apply _pick_precise_file_filter|].
    intros link. rewrite filter_In. unfold link_straddles.
    rewrite Forall_forall in Hall.
    split.
    + intros [Hin Hs]. split; [exact Hin|].
      destruct (Hall link Hin) as [so Hso]. rewrite Hso in Hs.
      exists so. split; [exact Hso|]. now apply straddles_iff.
    + intros [Hin (so & Hso & Hd)]. split; [exact Hin|].
      rewrite Hso. now apply straddles_iff.
  - intros mission dt save_dir w w1 links _ H.
    now rewrite (_download_and_write_found _ _ _ _ _ _ _ H).
  - intros mission dt save_dir w w1 links _ _ H.
    now rewrite (_download_and_write_found _ _ _ _ _ _ _ H).
Qed.
End PickFacts.

(** The spec's scenario: with target date 2021-02-26 the file valid from
    2021-02-25 to 2021-02-27 is kept and its neighbours are not; and a
    restituted file, whose window lies within one day, is downloaded. *)
Lemma pick_precise_file_exact_window_witness :
  @Download._pick_precise_file ProductsModel.products
    [Samples.link_0225; Samples.link_0226; Samples.link_0227]
    Samples.noon_0226
  = Ok [Samples.link_0226]
  /\ fst (@Download._download_and_write ProductsModel.products
            Samples.archive_restituted_only (Some "S1A") Samples.noon_0226 "."
            Samples.empty_world)
     = Ok (Some ["./" ++ Samples.res_noon]%string).
Proof.
  split.
  - apply (proj1 (@pick_precise_file_exact_window ProductsModel.products
                    Samples.archive_restituted_only)).
    + solve_in_range.
    + repeat constructor; eexists; vm_compute; reflexivity.
  - rewrite (proj1 (proj2 (@pick_precise_file_exact_window
                             ProductsModel.products
                             Samples.archive_restituted_only))
               (Some "S1A") Samples.noon_0226 "." Samples.empty_world
               (snd (@Download.eof_list Samples.archive_restituted_only
                       Samples.noon_0226 (Some "S1A") Download.PRECISE_ORBIT
                       Samples.empty_world))
               [(Samples.res_page_0226 ++ Samples.res_noon)%string]).
    + vm_compute. reflexivity.
    + solve_in_range.
    + vm_compute. reflexivity.
Defined.


(** ** The catalogue client [ScihubGnssClient] *)

Lemma result_map_Forall2 {A B : Type} (f : A -> result B)
    (l : list A) (ys : list B) :
  result_map f l = Ok ys -> Forall2 (fun x y => f x = Ok y) l ys.
Proof.
  revert ys. induction l as [|x l IH]; intros ys; simpl.
  - intros [= <-]. constructor.
  - destruct (f x) as [y|e] eqn:Fx; simpl; [|discriminate].
    destruct (result_map f l) as [ys'|e]; simpl; [|discriminate].
    intros [= <-]. constructor; [exact Fx | now apply IH].
Qed.

Lemma Forall2_In_right {A B : Type} (R : A -> B -> Prop)
    (l : list A) (ys : list B) (y : B) :
  Forall2 R l ys -> In y ys -> exists x, In x l /\ R x y.
Proof.
  induction 1 as [|x y' l ys Hxy _ IH]; intros Hin; [destruct Hin|].
  destruct Hin as [<-|Hin].
  - exists x. split; [now left | exact Hxy].
  - destruct (IH Hin) as (x' & Hx' & HR). exists x'. split; [now right | exact HR].
Qed.

Section ScihubFacts.
Context {P : ProductsModule} {API : Scihub.SentinelAPI}.
Import Scihub.

Lemma query_orbit_run (t0 t1 : Datetime.datetime) (m ptype : string) (w : world) :
  valid_satellite m = true ->
  ptype = "AUX_POEORB" \/ ptype = "AUX_RESORB" ->
  query_orbit t0 t1 m ptype w
  = (api_query (mkQuery ptype (tail_string m) (None, Some t1) (Some t0, None)),
     asked (mkQuery ptype (tail_string m) (None, Some t1) (Some t0, None)) w).
Proof.
  intros Hm Hp. unfold query_orbit, valid_satellite in *. rewrite Hm.
  destruct Hp as [-> | ->]; reflexivity.
Qed.

(** The selection made on a non-empty answer: the selector runs on the parsed
    identifiers of all products of the answer. *)
Lemma _select_orbit_run (products : dict product) (t0 t1 : Datetime.datetime)
    (validity_info : list SentinelOrbit) :
  products <> [] ->
  get_validity_info (map identifier (dict_values products)) = Ok validity_info ->
  _select_orbit products t0 t1
  = result_bind (lastval_cover t0 t1 validity_info) (fun product_id =>
      Ok (filter (fun kv => String.eqb (identifier (snd kv)) product_id)
                 products)).
Proof.
  intros Hne Hinfo. unfold _select_orbit.
  destruct products as [|kv products]; [easy|]. now rewrite Hinfo.
Qed.

(** A successful selection is never empty when instances keep their name. *)
Lemma selection_nonempty (products : dict product) (t0 t1 : Datetime.datetime)
    (validity_info : list SentinelOrbit) (product_id : string) :
  keeps_filename P ->
  get_validity_info (map identifier (dict_values products)) = Ok validity_info ->
  lastval_cover t0 t1 validity_info = Ok product_id ->
  filter (fun kv => String.eqb (identifier (snd kv)) product_id) products <> [].
Proof.
  intros Hkeep Hinfo Hsel.
  pose proof (lastval_cover_spec t0 t1 validity_info) as Hspec.
  rewrite Hsel in Hspec. destruct Hspec as (pre & c & post & -> & -> & _).
  apply result_map_Forall2 in Hinfo.
  destruct (Forall2_In_right _ _ _ c Hinfo (in_elt _ _ _)) as (name & Hname & Hc).
  unfold dict_values in Hname. rewrite map_map in Hname.
  apply in_map_iff in Hname. destruct Hname as (kv & <- & Hkv).
  intros Hnil.
  assert (In kv (filter (fun kv => String.eqb (identifier (snd kv)) (filename c))
                        products)) as Hin.
  { apply filter_In. split; [exact Hkv|].
    rewrite (Hkeep _ _ Hc). apply String.eqb_refl. }
  rewrite Hnil in Hin. destruct Hin.
Qed.

Lemma select_if_any_run (products : dict product) (dt : Datetime.datetime)
    (validity_info : list SentinelOrbit) :
  products <> [] ->
  get_validity_info (map identifier (dict_values products)) = Ok validity_info ->
  select_if_any products dt
  = result_bind
      (lastval_cover dt (dt + Datetime.mk_timedelta 0 0 1) validity_info)
      (fun product_id =>
         Ok (Some (filter (fun kv => String.eqb (identifier (snd kv)) product_id)
                          products))).
Proof.
  intros Hne Hinfo. unfold select_if_any.
  destruct products as [|kv rest] eqn:E; [easy|]. rewrite <- E in *.
  rewrite (_select_orbit_run _ _ _ _ Hne Hinfo).
  now destruct (lastval_cover _ _ validity_info).
Qed.

(** The restituted attempt, case by case on the catalogue's answer. *)
Lemma try_resorb_run (st : locals) (m : string) (dt : Datetime.datetime)
    (w : world) :
  valid_satellite m = true ->
  try_resorb st m dt w
  = (match api_query (restituted_query m dt) with
     | Raise e => Raise e
     | Ok products =>
         match select_if_any products dt with
         | Raise e => Raise e
         | Ok result =>
             Ok (if truthy result
                 then mkLocals (remaining_dates st)
                               (dict_update (query st) (result_dict result))
                 else mkLocals (remaining_dates st ++ [(m, dt)]) (query st))
         end
     end,
     asked (restituted_query m dt) w).
Proof.
  intros Hm. unfold try_resorb, restituted_query, bind at 1.
  rewrite query_orbit_run by (auto; now right).
  destruct (api_query _) as [products|e]; [|reflexivity].
  unfold bind, lift.
  destruct (select_if_any products dt) as [result|e]; [|reflexivity].
  now destruct (truthy result).
Qed.

(** The precise attempt of an iteration, case by case. *)
Lemma query_orbit_by_dt_step_precise_run (t0m t1m : Datetime.timedelta)
    (st : locals) (m : string) (dt : Datetime.datetime) (w : world) :
  valid_satellite m = true ->
  query_orbit_by_dt_step "precise" t0m t1m st m dt w
  = match api_query (precise_query t0m t1m m dt) with
    | Raise e => (Raise e, asked (precise_query t0m t1m m dt) w)
    | Ok products =>
        match select_if_any products dt with
        | Raise e => (Raise e, asked (precise_query t0m t1m m dt) w)
        | Ok result =>
            if truthy result
            then (Ok (mkLocals (remaining_dates st)
                               (dict_update (query st) (result_dict result))),
                  asked (precise_query t0m t1m m dt) w)
            else try_resorb st m dt (asked (precise_query t0m t1m m dt) w)
        end
    end.
Proof.
  intros Hm. unfold query_orbit_by_dt_step. simpl String.eqb. cbv iota.
  unfold precise_query, bind at 1 2.
  rewrite query_orbit_run by (auto; now left).
  destruct (api_query _) as [products|e]; [|reflexivity].
  unfold lift.
  destruct (select_if_any products dt) as [result|e]; [|reflexivity].
  now destruct (truthy result).
Qed.

Lemma query_orbit_by_dt_step_other_run (orbit_type : string)
    (t0m t1m : Datetime.timedelta)
    (st : locals) (m : string) (dt : Datetime.datetime) (w : world) :
  String.eqb orbit_type "precise" = false ->
  query_orbit_by_dt_step orbit_type t0m t1m st m dt w = try_resorb st m dt w.
Proof.
  intros H. unfold query_orbit_by_dt_step. rewrite H. reflexivity.
Qed.
End ScihubFacts.

(** ** The archive path: [eof_list], [_download_and_write], [download_eofs] *)

Section ArchiveFacts.
Context {P : ProductsModule} {A : Download.Archive}.
Import Download.

Lemma eof_list_body_run (self : string -> M world (list string * string))
    (start_dt : Datetime.datetime) (mission : option string)
    (orbit_type : string) (w : world) :
  eof_list_body self start_dt mission orbit_type w
  = match read_page mission (page_url orbit_type start_dt) with
    | Listed links =>
        (Ok (links, orbit_type), searched (page_url orbit_type start_dt) w)
    | Failed e => (Raise e, searched (page_url orbit_type start_dt) w)
    | NotFound =>
        if String.eqb orbit_type PRECISE_ORBIT
        then self RESTITUTED_ORBIT
               (logged (WarningPreciseNotAvailable
                          (search_dt_of orbit_type start_dt))
                       (searched (page_url orbit_type start_dt) w))
        else (Raise (ValueError
                       (not_available_msg (search_dt_of orbit_type start_dt))),
              searched (page_url orbit_type start_dt) w)
    | NoLinks =>
        if String.eqb orbit_type PRECISE_ORBIT
        then self RESTITUTED_ORBIT
               (logged (WarningNoPreciseFound mission
                          (strftime start_dt DT_FMT))
                       (searched (page_url orbit_type start_dt) w))
        else (Raise (ValueError
                       (no_files_msg start_dt mission
                          (page_url orbit_type start_dt))),
              searched (page_url orbit_type start_dt) w)
    end.
Proof.
  unfold eof_list_body, read_page, page_url, search_dt_of.
  set (url := base_url orbit_type _).
  unfold bind, emit, get, modify, lift, raise_for_status, searched, logged.
  simpl.
  destruct (requests_get url) as [response|e]; [|reflexivity].
  destruct (status_code response =? 404).
  - destruct (String.eqb orbit_type PRECISE_ORBIT); reflexivity.
  - destruct ((400 <=? status_code response) && (status_code response <? 600));
      [reflexivity|]. unfold ret. simpl.
    destruct (mission_links url mission (eof_links (text response)))
      as [[|link links]|e]; simpl; try reflexivity.
    + destruct (String.eqb orbit_type PRECISE_ORBIT); reflexivity.
    + destruct (Z.ltb_spec (Z.pos (Pos.of_succ_nat (List.length links))) 1);
        [lia | reflexivity].
Qed.

(** From the restituted tier [eof_list] does not call itself. *)
Lemma eof_list_restituted_run (start_dt : Datetime.datetime)
    (mission : option string) (w : world) :
  eof_list start_dt mission RESTITUTED_ORBIT w
  = match read_page mission (page_url RESTITUTED_ORBIT start_dt) with
    | Listed links =>
        (Ok (links, RESTITUTED_ORBIT),
         searched (page_url RESTITUTED_ORBIT start_dt) w)
    | Failed e => (Raise e, searched (page_url RESTITUTED_ORBIT start_dt) w)
    | NotFound =>
        (Raise (ValueError
                  (not_available_msg (search_dt_of RESTITUTED_ORBIT start_dt))),
         searched (page_url RESTITUTED_ORBIT start_dt) w)
    | NoLinks =>
        (Raise (ValueError
                  (no_files_msg start_dt mission
                     (page_url RESTITUTED_ORBIT start_dt))),
         searched (page_url RESTITUTED_ORBIT start_dt) w)
    end.
Proof.
  unfold eof_list. rewrite eof_list_body_run.
  now destruct (read_page mission (page_url RESTITUTED_ORBIT start_dt)).
Qed.

(** From the precise tier: the page's links under the precise tier, or, when
    the page is missing or has no link of the mission, the restituted tier. *)
Lemma eof_list_precise_run (start_dt : Datetime.datetime)
    (mission : option string) (w : world) :
  eof_list start_dt mission PRECISE_ORBIT w
  = match read_page mission (page_url PRECISE_ORBIT start_dt) with
    | Listed links =>
        (Ok (links, PRECISE_ORBIT),
         searched (page_url PRECISE_ORBIT start_dt) w)
    | Failed e => (Raise e, searched (page_url PRECISE_ORBIT start_dt) w)
    | NotFound =>
        eof_list start_dt mission RESTITUTED_ORBIT
          (logged (WarningPreciseNotAvailable
                     (search_dt_of PRECISE_ORBIT start_dt))
                  (searched (page_url PRECISE_ORBIT start_dt) w))
    | NoLinks =>
        eof_list start_dt mission RESTITUTED_ORBIT
          (logged (WarningNoPreciseFound mission (strftime start_dt DT_FMT))
                  (searched (page_url PRECISE_ORBIT start_dt) w))
    end.
Proof.
  unfold eof_list at 1. rewrite eof_list_body_run.
  destruct (read_page mission (page_url PRECISE_ORBIT start_dt));
    try reflexivity; simpl String.eqb; cbv iota;
    rewrite eof_list_restituted_run, eof_list_body_run;
    now destruct (read_page mission (page_url RESTITUTED_ORBIT start_dt)).
Qed.
End ArchiveFacts.

Lemma parse_orbit_keeps_filename : keeps_filename ProductsModel.products.
Proof.
  intros name o. simpl. unfold ProductsModel.parse_orbit.
  destruct (ProductsModel.parse_time (substring 25 15 name)); [|discriminate].
  destruct (ProductsModel.parse_time (substring 42 15 name)); [|discriminate].
  destruct (ProductsModel.parse_time (substring 58 15 name)); [|discriminate].
  match goal with |- (if ?b then _ else _) = _ -> _ => destruct b end;
    [|discriminate].
  now intros [= <-].
Qed.

(** ** The worker [_download_and_write] and the batch [download_eofs] *)

Section WorkerFacts.
Context {P : ProductsModule} {A : Download.Archive}.
Import Download.

(** With both pages missing or without a link of the mission, [eof_list]
    raises a [ValueError]. *)
Lemma eof_list_unavailable (dt : Datetime.datetime) (mission : option string)
    (w : world) :
  unavailable (read_page mission (page_url PRECISE_ORBIT dt)) = true ->
  unavailable (read_page mission (page_url RESTITUTED_ORBIT dt)) = true ->
  exists msg w1,
    eof_list dt mission PRECISE_ORBIT w = (Raise (ValueError msg), w1)
    /\ requests w1
       = requests w ++ [page_url PRECISE_ORBIT dt; page_url RESTITUTED_ORBIT dt]
    /\ files w1 = files w.
Proof.
  intros Hp Hr. rewrite eof_list_precise_run.
  destruct (read_page mission (page_url PRECISE_ORBIT dt)); try discriminate;
    rewrite eof_list_restituted_run;
    destruct (read_page mission (page_url RESTITUTED_ORBIT dt));
    try discriminate;
    eexists; eexists; (split; [reflexivity|]); simpl;
    now rewrite <- app_assoc.
Qed.

(** The worker catches that [ValueError], logs two warnings and ends in a
    bare [return]. *)
Lemma _download_and_write_unavailable (mission : option string)
    (dt : Datetime.datetime) (save_dir : string) (w : world) :
  unavailable (read_page mission (page_url PRECISE_ORBIT dt)) = true ->
  unavailable (read_page mission (page_url RESTITUTED_ORBIT dt)) = true ->
  exists msg w1,
    _download_and_write mission dt save_dir w
    = (Ok None,
       logged (WarningSkipping (strftime dt "%Y-%m-%d"))
              (logged (WarningMessage msg) w1))
    /\ files w1 = files w.
Proof.
  intros Hp Hr.
  destruct (eof_list_unavailable dt mission w Hp Hr) as (msg & w1 & H & _ & Hf).
  exists msg, w1. split; [|exact Hf].
  unfold _download_and_write.
  unfold bind at 1, try_except, bind at 1. rewrite H. reflexivity.
Qed.

(** [download_eofs] then hands that [None] to [filenames.extend]. *)
Lemma download_eofs_unavailable_request (m : string) (dt : Datetime.datetime)
    (save_dir : string) (w : world) :
  known_mission m = true ->
  unavailable (read_page (Some m) (page_url PRECISE_ORBIT dt)) = true ->
  unavailable (read_page (Some m) (page_url RESTITUTED_ORBIT dt)) = true ->
  fst (download_eofs [dt] [m] save_dir w) = Raise TypeError.
Proof.
  intros Hm Hp Hr.
  destruct (_download_and_write_unavailable (Some m) dt save_dir w Hp Hr)
    as (msg & w1 & H & _).
  unfold download_eofs. simpl. rewrite Hm. simpl.
  unfold bind at 1, bind at 1, apply_async. rewrite H. reflexivity.
Qed.


End WorkerFacts.

(** ** The tiered fallback *)

Section FallbackFacts.
Context {P : ProductsModule} {API : Scihub.SentinelAPI} {A : Download.Archive}.
Import Scihub Download.

(** The fallback on an empty precise tier. When the precise tier yields no
    candidates, the restituted tier is tried. In the catalogue client an
    empty answer to the precise query is followed by one [AUX_RESORB] query
    over the window of one hour on each side of the time; the selector then
    runs on all products of that answer, no straddling filter is involved,
    and the entries merged into the result are entries of the restituted
    answer. In the archive client a precise page that is missing (404) or has
    no link of the mission is followed by the restituted page, the one of the
    day of the time plus four hours; links found there are returned under the
    tier [RESORB] and go to the download loop without the precise-window
    filter. *)
Theorem restituted_fallback_on_empty_tier :
  (forall t0m t1m st m dt w,
     valid_satellite m = true ->
     api_query (precise_query t0m t1m m dt) = Ok [] ->
     query_orbit_by_dt_step "precise" t0m t1m st m dt w
     = try_resorb st m dt (asked (precise_query t0m t1m m dt) w))
  /\ (forall st m dt w,
        valid_satellite m = true ->
        snd (try_resorb st m dt w) = asked (restituted_query m dt) w
        /\ forall products validity_info product_id,
             keeps_filename P ->
             api_query (restituted_query m dt) = Ok products ->
             get_validity_info (map identifier (dict_values products))
             = Ok validity_info ->
             lastval_cover dt (dt + Datetime.mk_timedelta 0 0 1) validity_info
             = Ok product_id ->
             fst (try_resorb st m dt w)
             = Ok (mkLocals
                     (remaining_dates st)
                     (dict_update
                        (query st)
                        (filter (fun kv => String.eqb (identifier (snd kv))
                                                      product_id)
                                products))))
  /\ (forall dt mission w,
        unavailable (read_page mission (page_url PRECISE_ORBIT dt)) = true ->
        exists w1,
          requests w1 = requests w ++ [page_url PRECISE_ORBIT dt]
          /\ eof_list dt mission PRECISE_ORBIT w
             = eof_list dt mission RESTITUTED_ORBIT w1
          /\ forall links,
               read_page mission (page_url RESTITUTED_ORBIT dt) = Listed links ->
               eof_list dt mission PRECISE_ORBIT w
               = (Ok (links, RESTITUTED_ORBIT),
                  searched (page_url RESTITUTED_ORBIT dt) w1))
  /\ (forall dt,
        page_url RESTITUTED_ORBIT dt
        = base_url "RESORB"
            (strftime (dt + Datetime.mk_timedelta 0 4 0) DT_FMT))
  /\ (forall mission dt save_dir w w1 links,
        eof_list dt mission PRECISE_ORBIT w
        = (Ok (links, RESTITUTED_ORBIT), w1) ->
        _download_and_write mission dt save_dir w
        = (cur_links <- lift (_dedupe_links links) ;;
           saved_files <- save_links save_dir cur_links [] ;;
           ret (Some saved_files)) w1).
Proof.
  split; [|split; [|split; [|split]]].
  - intros t0m t1m st m dt w Hm Hempty.
    rewrite query_orbit_by_dt_step_precise_run by exact Hm.
    now rewrite Hempty.
  - intros st m dt w Hm. rewrite try_resorb_run by exact Hm.
    split; [reflexivity|].
    intros products validity_info product_id Hkeep Hq Hinfo Hsel.
    rewrite Hq. simpl fst.
    pose proof (selection_nonempty _ _ _ _ _ Hkeep Hinfo Hsel) as Hne.
    assert (products <> []) as Hp by (intros ->; now apply Hne).
    rewrite (select_if_any_run _ _ _ Hp Hinfo), Hsel. simpl result_bind.
    cbv iota beta.
    destruct (filter _ products) as [|kv kvs]; [easy | reflexivity].
  - intros dt mission w Hun. rewrite eof_list_precise_run.
    destruct (read_page mission (page_url PRECISE_ORBIT dt)); try discriminate.
    + eexists. split; [|split; [reflexivity|]]; [reflexivity|].
      intros links Hl. now rewrite eof_list_restituted_run, Hl.
    + eexists. split; [|split; [reflexivity|]]; [reflexivity|].
      intros links Hl. now rewrite eof_list_restituted_run, Hl.
  - reflexivity.
  - intros mission dt save_dir w w1 links H.
    now rewrite (_download_and_write_found _ _ _ _ _ _ _ H).
Qed.
End FallbackFacts.

(** C5. The failing input of the fallback in the catalogue client. The
    catalogue has the precise file of 2021-02-25, which meets the search
    window of the request (S1A, 2021-02-26 12:00) without covering its time,
    and a restituted file that covers it. The precise answer is not empty, so
    the selector runs on it and raises [ValidityError]; nothing catches the
    exception, it leaves [query_orbit_by_dt] after the precise query, and the
    [else] branch that tries the restituted tier is never reached. That
    branch, run in the state in which the precise attempt ended, resolves the
    request from the restituted answer, and so does the call that asks for
    the restituted tier alone. *)
Theorem no_cover_skips_fallback :
  @Scihub.query_orbit_by_dt ProductsModel.products Samples.catalogue_day_before
    ["S1A"] [Samples.noon_0226] "precise" Scihub.T0 Scihub.T1 Samples.quiet
  = (Raise ValidityError,
     Scihub.asked
       (Scihub.precise_query Scihub.T0 Scihub.T1 "S1A" Samples.noon_0226)
       Samples.quiet)
  /\ @Scihub.api_query Samples.catalogue_day_before
       (Scihub.precise_query Scihub.T0 Scihub.T1 "S1A" Samples.noon_0226)
     = Ok [Catalogue.entry "uuid-3" Samples.poe_0225]
  /\ @Scihub._select_orbit ProductsModel.products
       [Catalogue.entry "uuid-3" Samples.poe_0225]
       Samples.noon_0226 (Samples.noon_0226 + Datetime.mk_timedelta 0 0 1)
     = Raise ValidityError
  /\ @Scihub.api_query Samples.catalogue_day_before
       (Scihub.restituted_query "S1A" Samples.noon_0226)
     = Ok [Catalogue.entry "uuid-4" Samples.res_noon]
  /\ @Scihub.try_resorb ProductsModel.products Samples.catalogue_day_before
       (Scihub.mkLocals [] []) "S1A" Samples.noon_0226
       (Scihub.asked
          (Scihub.precise_query Scihub.T0 Scihub.T1 "S1A" Samples.noon_0226)
          Samples.quiet)
     = (Ok (Scihub.mkLocals [] [Catalogue.entry "uuid-4" Samples.res_noon]),
        Scihub.asked
          (Scihub.restituted_query "S1A" Samples.noon_0226)
          (Scihub.asked
             (Scihub.precise_query Scihub.T0 Scihub.T1 "S1A" Samples.noon_0226)
             Samples.quiet))
  /\ fst (@Scihub.query_orbit_by_dt ProductsModel.products
            Samples.catalogue_day_before ["S1A"] [Samples.noon_0226]
            "restituted" Scihub.T0 Scihub.T1 Samples.quiet)
     = Ok [Catalogue.entry "uuid-4" Samples.res_noon]
  /\ Range.catalogue_request Scihub.T0 Scihub.T1 ("S1A", Samples.noon_0226).
Proof.
  repeat split; try (vm_compute; reflexivity);
    apply Z.leb_le; vm_compute; reflexivity.
Qed.

(** With only a restituted file in the catalogue the request is answered from
    the restituted query; with only the restituted page in the archive the
    links come back under the tier [RESORB]. *)
Lemma restituted_fallback_on_empty_tier_witness :
  @Scihub.query_orbit_by_dt_step ProductsModel.products
    Samples.catalogue_restituted "precise" Scihub.T0 Scihub.T1
    (Scihub.mkLocals [] []) "S1A" Samples.noon_0226 Samples.quiet
  = @Scihub.try_resorb ProductsModel.products Samples.catalogue_restituted
      (Scihub.mkLocals [] []) "S1A" Samples.noon_0226
      (Scihub.asked
         (Scihub.precise_query Scihub.T0 Scihub.T1 "S1A" Samples.noon_0226)
         Samples.quiet)
  /\ fst (@Scihub.try_resorb ProductsModel.products Samples.catalogue_restituted
            (Scihub.mkLocals [] []) "S1A" Samples.noon_0226 Samples.quiet)
     = Ok (Scihub.mkLocals [] [Catalogue.entry "uuid-4" Samples.res_noon])
  /\ exists w1,
       @Download.eof_list Samples.archive_restituted_only Samples.noon_0226
         (Some "S1A") Download.PRECISE_ORBIT Samples.empty_world
       = (Ok ([(Samples.res_page_0226 ++ Samples.res_noon)%string],
              Download.RESTITUTED_ORBIT), w1).
Proof.
  pose proof (@restituted_fallback_on_empty_tier ProductsModel.products
                Samples.catalogue_restituted Samples.archive_restituted_only)
    as (Hstep & Hres & Harch & _).
  split; [|split].
  - apply Hstep; reflexivity.
  - refine (proj2 (Hres (Scihub.mkLocals [] []) "S1A" Samples.noon_0226
                        Samples.quiet eq_refl)
              [Catalogue.entry "uuid-4" Samples.res_noon]
              [Samples.orbit_of Samples.res_noon]
              Samples.res_noon parse_orbit_keeps_filename _ _ _);
      vm_compute; reflexivity.
  - destruct (Harch Samples.noon_0226 (Some "S1A") Samples.empty_world eq_refl)
      as (w1 & _ & _ & Hlinks).
    eexists. apply Hlinks. vm_compute. reflexivity.
Defined.

(** ** Requests that no tier resolves *)

Section UnresolvedFacts.
Context {P : ProductsModule} {API : Scihub.SentinelAPI} {A : Download.Archive}.
Import Scihub Download.

Lemma query_orbit_by_dt_step_unanswered (t0m t1m : Datetime.timedelta)
    (st : locals) (m : string) (dt : Datetime.datetime) (w : Scihub.world) :
  unanswered t0m t1m (m, dt) ->
  query_orbit_by_dt_step "precise" t0m t1m st m dt w
  = (Ok (mkLocals (remaining_dates st ++ [(m, dt)]) (query st)),
     asked (restituted_query m dt) (asked (precise_query t0m t1m m dt) w)).
Proof.
  intros (Hm & Hp & Hr). simpl in *.
  rewrite query_orbit_by_dt_step_precise_run by exact Hm.
  rewrite Hp. simpl. rewrite try_resorb_run by exact Hm.
  now rewrite Hr.
Qed.

Lemma query_orbit_by_dt_loop_unanswered (t0m t1m : Datetime.timedelta)
    (requests : list (string * Datetime.datetime)) (st : locals)
    (w : Scihub.world) :
  Forall (unanswered t0m t1m) requests ->
  exists w1,
    query_orbit_by_dt_loop "precise" t0m t1m requests st w
    = (Ok (mkLocals (remaining_dates st ++ requests) (query st)), w1).
Proof.
  intros H. revert st w.
  induction H as [|[m dt] requests Hreq _ IH]; intros st w.
  - exists w. destruct st. simpl. unfold ret. now rewrite app_nil_r.
  - simpl. unfold bind.
    rewrite (query_orbit_by_dt_step_unanswered _ _ _ _ _ _ Hreq).
    destruct (IH (mkLocals (remaining_dates st ++ [(m, dt)]) (query st))
                 (asked (restituted_query m dt)
                        (asked (precise_query t0m t1m m dt) w)))
      as [w1 Hw1].
    exists w1. rewrite Hw1. simpl. now rewrite <- app_assoc.
Qed.

(** What the batch call hands back once the loop is through. *)
Lemma query_orbit_by_dt_returns_query (missions : list string)
    (orbit_dts : list Datetime.datetime) (orbit_type : string)
    (t0m t1m : Datetime.timedelta) (w w1 : Scihub.world) (st : locals) :
  query_orbit_by_dt_loop orbit_type t0m t1m (combine missions orbit_dts)
                         (mkLocals [] []) w
  = (Ok st, w1) ->
  query_orbit_by_dt missions orbit_dts orbit_type t0m t1m w
  = (Ok (query st),
     match remaining_dates st with
     | [] => w1
     | _ :: _ =>
         Scihub.mkWorld (queries w1)
                        (Scihub.log w1 ++ [LogWarningNotFound (remaining_dates st)])
     end).
Proof.
  intros H. unfold query_orbit_by_dt, bind at 1. rewrite H.
  now destruct (remaining_dates st).
Qed.

End UnresolvedFacts.

(** ** The precise-tier attempt *)

Section PreciseFacts.
Context {P : ProductsModule} {API : Scihub.SentinelAPI} {A : Download.Archive}.
Import Scihub Download.

End PreciseFacts.



(** * Further properties of the code *)

(** ** More on the selector *)

Lemma lastval_cover_raise_iff (t0 t1 : Datetime.datetime)
    (data : list SentinelOrbit) :
  lastval_cover t0 t1 data = Raise ValidityError
  <-> forall c, In c data -> covers t0 t1 c = false.
Proof.
  pose proof (lastval_cover_spec t0 t1 data) as H.
  destruct (lastval_cover t0 t1 data) as [f|e].
  - destruct H as (pre & c & post & -> & _ & Hc & _). split; [discriminate|].
    intros Hno. rewrite (Hno c (in_elt _ _ _)) in Hc. discriminate.
  - destruct H as [-> Hno]. now split.
Qed.

(** The candidate behind an answer: it covers, and no covering candidate of
    the input was created later. *)
Lemma lastval_cover_answer (t0 t1 : Datetime.datetime)
    (data : list SentinelOrbit) (f : string) :
  lastval_cover t0 t1 data = Ok f ->
  exists c,
    In c data /\ covers t0 t1 c = true /\ filename c = f
    /\ forall y, In y data -> covers t0 t1 y = true ->
                 created_time y <= created_time c.
Proof.
  intros Hf. pose proof (lastval_cover_spec t0 t1 data) as H. rewrite Hf in H.
  destruct H as (pre & c & post & -> & -> & Hc & Hpre & Hpost).
  exists c. split; [apply in_elt|]. split; [exact Hc|]. split; [reflexivity|].
  intros y Hy Cy. apply in_app_or in Hy. destruct Hy as [Hy|[<-|Hy]].
  - specialize (Hpre y Hy Cy). lia.
  - lia.
  - now apply Hpost.
Qed.

Lemma lastval_cover_some (t0 t1 : Datetime.datetime)
    (data : list SentinelOrbit) (c : SentinelOrbit) :
  In c data -> covers t0 t1 c = true ->
  exists f, lastval_cover t0 t1 data = Ok f.
Proof.
  intros Hin Hc. pose proof (lastval_cover_spec t0 t1 data) as H.
  destruct (lastval_cover t0 t1 data) as [f|e]; [now exists f|].
  destruct H as [_ Hno]. rewrite (Hno c Hin) in Hc. discriminate.
Qed.

(** X1. The order of the input matters to the selector only through ties:
    when the candidates that cover the interval have pairwise different
    creation times, every reordering of the input gives the same answer. *)
Theorem lastval_cover_permutation (t0 t1 : Datetime.datetime)
    (data data' : list SentinelOrbit) :
  Permutation data data' ->
  (forall a b, In a data -> In b data ->
               fully_covers t0 t1 a -> fully_covers t0 t1 b ->
               created_time a = created_time b -> a = b) ->
  lastval_cover t0 t1 data' = lastval_cover t0 t1 data.
Proof.
  intros Hperm Hdistinct.
  destruct (lastval_cover t0 t1 data) as [f|e] eqn:E.
  - destruct (lastval_cover_answer _ _ _ _ E) as (c & Hin & Hc & <- & Hmax).
    destruct (lastval_cover_some t0 t1 data' c
                (Permutation_in _ Hperm Hin) Hc) as [f' E'].
    rewrite E'.
    destruct (lastval_cover_answer _ _ _ _ E') as (c' & Hin' & Hc' & <- & Hmax').
    apply (Permutation_in _ (Permutation_sym Hperm)) in Hin'.
    assert (created_time c' = created_time c) as Heq.
    { specialize (Hmax c' Hin' Hc').
      specialize (Hmax' c (Permutation_in _ Hperm Hin) Hc). lia. }
    now rewrite (Hdistinct c' c Hin' Hin
                   (proj1 (covers_iff _ _ _) Hc') (proj1 (covers_iff _ _ _) Hc)
                   Heq).
  - pose proof (lastval_cover_spec t0 t1 data) as H. rewrite E in H.
    destruct H as [-> Hno]. apply lastval_cover_raise_iff.
    intros c Hin. apply Hno.
    now apply (Permutation_in _ (Permutation_sym Hperm)).
Qed.

Lemma lastval_cover_permutation_witness :
  lastval_cover Samples.t_0226 Samples.t_0226_0001
    [Samples.orbit_of Samples.poe_0226_new; Samples.orbit_of Samples.poe_0225;
     Samples.orbit_of Samples.poe_0226]
  = lastval_cover Samples.t_0226 Samples.t_0226_0001
      [Samples.orbit_of Samples.poe_0225; Samples.orbit_of Samples.poe_0226;
       Samples.orbit_of Samples.poe_0226_new].
Proof.
  apply lastval_cover_permutation.
  - apply Permutation_sym. apply (Permutation_cons_append
            [Samples.orbit_of Samples.poe_0225;
             Samples.orbit_of Samples.poe_0226]
            (Samples.orbit_of Samples.poe_0226_new)).
  - intros a b [<-|[<-|[<-|[]]]] [<-|[<-|[<-|[]]]] _ _ H;
      try reflexivity; vm_compute in H; discriminate.
Defined.

(** X2. Success is kept when the interval shrinks: if the selector answers
    for [[t0, t1]], it answers for every interval inside it, and with a
    candidate created no earlier. *)
Theorem lastval_cover_shrink (t0 t1 t0' t1' : Datetime.datetime)
    (data : list SentinelOrbit) (f : string) :
  lastval_cover t0 t1 data = Ok f ->
  t0 <= t0' -> t1' <= t1 ->
  exists c c',
    In c data /\ In c' data /\ filename c = f
    /\ lastval_cover t0' t1' data = Ok (filename c')
    /\ created_time c <= created_time c'.
Proof.
  intros Hf H0 H1.
  destruct (lastval_cover_answer _ _ _ _ Hf) as (c & Hin & Hc & <- & _).
  assert (covers t0' t1' c = true) as Hc'.
  { apply covers_iff. apply covers_iff in Hc. unfold fully_covers in *. lia. }
  destruct (lastval_cover_some t0' t1' data c Hin Hc') as [f' E'].
  destruct (lastval_cover_answer _ _ _ _ E') as (c' & Hin' & _ & <- & Hmax').
  exists c, c'. repeat split; try assumption. now apply Hmax'.
Qed.

Lemma lastval_cover_shrink_witness :
  exists c c',
    In c [Samples.orbit_of Samples.poe_0226]
    /\ In c' [Samples.orbit_of Samples.poe_0226]
    /\ filename c = Samples.poe_0226
    /\ lastval_cover Samples.t_0226_0001 Samples.t_0226_0001
         [Samples.orbit_of Samples.poe_0226]
       = Ok (filename c')
    /\ created_time c <= created_time c'.
Proof.
  apply (lastval_cover_shrink Samples.t_0226 Samples.noon_0226
           Samples.t_0226_0001 Samples.t_0226_0001).
  - reflexivity.
  - vm_compute. discriminate.
  - vm_compute. discriminate.
Defined.

(** ** More on the catalogue client *)

Lemma result_map_raise {A B : Type} (f : A -> result B)
    (pre post : list A) (x : A) (e : exn) :
  Forall (fun a => exists b, f a = Ok b) pre ->
  f x = Raise e ->
  result_map f (pre ++ x :: post) = Raise e.
Proof.
  intros Hpre Hx. induction Hpre as [|a pre [b Hb] _ IH]; simpl.
  - now rewrite Hx.
  - now rewrite Hb, IH.
Qed.

Lemma dict_set_In {V : Type} (d : dict V) (k : string) (v : V)
    (kv : string * V) :
  In kv (dict_set d k v) -> In kv d \/ kv = (k, v).
Proof.
  induction d as [|[k' v'] d IH]; simpl.
  - intros [<-|[]]. now right.
  - destruct (String.eqb_spec k' k) as [->|Hne]; simpl.
    + intros [<-|H]; [now right | left; now right].
    + intros [<-|H]; [left; now left|].
      destruct (IH H) as [H'|H']; [left; now right | now right].
Qed.

Lemma dict_update_In {V : Type} (other d : dict V) (kv : string * V) :
  In kv (dict_update d other) -> In kv d \/ In kv other.
Proof.
  unfold dict_update. revert d.
  induction other as [|[k v] other IH]; intros d; simpl; [now left|].
  intros H. destruct (IH _ H) as [H'|H']; [|right; now right].
  destruct (dict_set_In _ _ _ _ H') as [H'' | ->]; [now left | right; now left].
Qed.

Lemma dict_set_keys {V : Type} (d : dict V) (k : string) (v : V) :
  map fst (dict_set d k v)
  = if existsb (String.eqb k) (map fst d) then map fst d
    else map fst d ++ [k].
Proof.
  induction d as [|[k' v'] d IH]; simpl; [reflexivity|].
  rewrite (String.eqb_sym k k').
  destruct (String.eqb k' k); simpl; [reflexivity|].
  rewrite IH. now destruct (existsb (String.eqb k) (map fst d)).
Qed.

Lemma dict_set_NoDup {V : Type} (d : dict V) (k : string) (v : V) :
  NoDup (map fst d) -> NoDup (map fst (dict_set d k v)).
Proof.
  intros H. rewrite dict_set_keys.
  destruct (existsb (String.eqb k) (map fst d)) eqn:E; [exact H|].
  apply NoDup_app; [exact H | repeat constructor; intros [] |].
  intros k' Hin Hk. destruct Hk as [Hk|[]]. subst k'.
  assert (existsb (String.eqb k) (map fst d) = true) as Ht.
  { apply existsb_exists. exists k. split; [exact Hin | apply String.eqb_refl]. }
  congruence.
Qed.

Lemma dict_update_NoDup {V : Type} (other d : dict V) :
  NoDup (map fst d) -> NoDup (map fst (dict_update d other)).
Proof.
  unfold dict_update. revert d.
  induction other as [|[k v] other IH]; intros d H; simpl; [exact H|].
  apply IH. now apply dict_set_NoDup.
Qed.

Lemma combine_fst_snd {A B : Type} (l : list (A * B)) :
  combine (map fst l) (map snd l) = l.
Proof.
  induction l as [|[a b] l IH]; simpl; [reflexivity | now rewrite IH].
Qed.

Section ScihubMore.
Context {P : ProductsModule} {API : Scihub.SentinelAPI}.
Import Scihub.

Lemma query_orbit_invalid (t0 t1 : Datetime.datetime) (m ptype : string)
    (w : world) :
  valid_satellite m = false ->
  query_orbit t0 t1 m ptype w = (Raise AssertionError, w).
Proof.
  unfold query_orbit, valid_satellite. now intros ->.
Qed.

Lemma select_if_any_entries (products : dict product) (dt : Datetime.datetime)
    (res : option (dict product)) (kv : string * product) :
  select_if_any products dt = Ok res ->
  In kv (result_dict res) -> In kv products.
Proof.
  unfold select_if_any, _select_orbit.
  destruct products as [|kv0 products]; [now intros [= <-]|].
  destruct (get_validity_info _) as [info|e]; simpl; [|discriminate].
  destruct (lastval_cover _ _ info) as [pid|e]; simpl; [|discriminate].
  intros [= <-]. simpl result_dict. intros H.
  change (In kv (filter (fun kv => String.eqb (identifier (snd kv)) pid)
                        (kv0 :: products))) in H.
  now apply filter_In in H.
Qed.

Lemma try_resorb_effect (st : locals) (m : string) (dt : Datetime.datetime) (w : world) :
  exists qs,
    queries (snd (try_resorb st m dt w)) = queries w ++ qs
    /\ (qs = [] \/ qs = [restituted_query m dt])
    /\ forall st', fst (try_resorb st m dt w) = Ok st' ->
         (remaining_dates st' = remaining_dates st
          \/ remaining_dates st' = remaining_dates st ++ [(m, dt)])
         /\ (NoDup (map fst (query st)) -> NoDup (map fst (query st')))
         /\ forall kv, In kv (query st') ->
              In kv (query st)
              \/ exists q products,
                   In q qs /\ api_query q = Ok products /\ In kv products.
Proof.
  destruct (valid_satellite m) eqn:Hm.
  - rewrite try_resorb_run by exact Hm. exists [restituted_query m dt].
    split; [reflexivity|]. split; [now right|]. simpl fst.
    destruct (api_query (restituted_query m dt)) as [products|e] eqn:Hq;
      cbv iota beta; [|intros st' Hst'; discriminate Hst'].
    destruct (select_if_any products dt) as [res|e] eqn:Hsel;
      cbv iota beta; [|intros st' Hst'; discriminate Hst'].
    intros st' [= <-]. destruct (truthy res); simpl.
    + split; [now left|]. split; [apply dict_update_NoDup|].
      intros kv Hkv. apply dict_update_In in Hkv.
      destruct Hkv as [Hkv|Hkv]; [now left|]. right.
      exists (restituted_query m dt), products.
      split; [now left|]. split; [exact Hq|].
      now apply (select_if_any_entries _ _ _ _ Hsel).
    + split; [now right|]. split; [easy|]. intros kv Hkv. now left.
  - exists [].
    assert (try_resorb st m dt w = (Raise AssertionError, w)) as ->
      by (unfold try_resorb, bind; now rewrite query_orbit_invalid).
    simpl. split; [now rewrite app_nil_r|]. split; [now left|].
    intros st' Hst'. discriminate Hst'.
Qed.
End ScihubMore.

Section BatchFacts.
Context {P : ProductsModule} {API : Scihub.SentinelAPI}.
Import Scihub.

Lemma query_orbit_by_dt_step_effect (orbit_type : string)
    (t0m t1m : Datetime.timedelta) (st : locals) (m : string)
    (dt : Datetime.datetime) (w : world) :
  exists qs,
    queries (snd (query_orbit_by_dt_step orbit_type t0m t1m st m dt w))
    = queries w ++ qs
    /\ (qs = [] \/ qs = [precise_query t0m t1m m dt]
        \/ qs = [restituted_query m dt]
        \/ qs = [precise_query t0m t1m m dt; restituted_query m dt])
    /\ (String.eqb orbit_type "precise" = false ->
        qs = [] \/ qs = [restituted_query m dt])
    /\ forall st',
         fst (query_orbit_by_dt_step orbit_type t0m t1m st m dt w) = Ok st' ->
         (remaining_dates st' = remaining_dates st
          \/ remaining_dates st' = remaining_dates st ++ [(m, dt)])
         /\ (NoDup (map fst (query st)) -> NoDup (map fst (query st')))
         /\ forall kv, In kv (query st') ->
              In kv (query st)
              \/ exists q products,
                   In q qs /\ api_query q = Ok products /\ In kv products.
Proof.
  destruct (String.eqb orbit_type "precise") eqn:Ho.
  - apply String.eqb_eq in Ho. subst orbit_type.
    destruct (valid_satellite m) eqn:Hm.
    + rewrite query_orbit_by_dt_step_precise_run by exact Hm.
      destruct (api_query (precise_query t0m t1m m dt)) as [products|e] eqn:Hq.
      2:{ exists [precise_query t0m t1m m dt]. simpl.
          split; [reflexivity|]. split; [auto|]. split; [discriminate|].
          intros st' Hst'. discriminate Hst'. }
      destruct (select_if_any products dt) as [res|e] eqn:Hsel.
      2:{ exists [precise_query t0m t1m m dt]. simpl.
          split; [reflexivity|]. split; [auto|]. split; [discriminate|].
          intros st' Hst'. discriminate Hst'. }
      destruct (truthy res).
      * exists [precise_query t0m t1m m dt]. simpl.
        split; [reflexivity|]. split; [auto|]. split; [discriminate|].
        intros st' [= <-]. simpl.
        split; [now left|]. split; [apply dict_update_NoDup|].
        intros kv Hkv. apply dict_update_In in Hkv.
        destruct Hkv as [Hkv|Hkv]; [now left|]. right.
        exists (precise_query t0m t1m m dt), products.
        split; [now left|]. split; [exact Hq|].
        now apply (select_if_any_entries _ _ _ _ Hsel).
      * destruct (try_resorb_effect st m dt
                    (asked (precise_query t0m t1m m dt) w))
          as (qs & Hqs & Hshape & Hok).
        exists (precise_query t0m t1m m dt :: qs).
        split; [rewrite Hqs; simpl; now rewrite <- app_assoc|].
        split; [destruct Hshape as [-> | ->]; auto|].
        split; [discriminate|].
        intros st' Hst'. destruct (Hok st' Hst') as (Hrem & Hnd & Hprov).
        split; [exact Hrem|]. split; [exact Hnd|].
        intros kv Hkv. destruct (Hprov kv Hkv) as [H|(q & ps & Hin & Ha & Hk)];
          [now left|].
        right. exists q, ps. split; [now right|]. now split.
    + assert (query_orbit_by_dt_step "precise" t0m t1m st m dt w
              = (Raise AssertionError, w)) as ->.
      { unfold query_orbit_by_dt_step. simpl String.eqb. cbv iota.
        unfold bind. now rewrite query_orbit_invalid. }
      exists []. simpl. split; [now rewrite app_nil_r|]. split; [auto|].
      split; [discriminate|]. intros st' Hst'. discriminate Hst'.
  - rewrite query_orbit_by_dt_step_other_run by exact Ho.
    destruct (try_resorb_effect st m dt w) as (qs & Hqs & Hshape & Hok).
    exists qs. split; [exact Hqs|].
    split; [destruct Hshape as [-> | ->]; auto|].
    split; [now intros _|]. exact Hok.
Qed.

Lemma query_orbit_by_dt_loop_app (orbit_type : string)
    (t0m t1m : Datetime.timedelta)
    (pre post : list (string * Datetime.datetime)) (st : locals) (w : world) :
  query_orbit_by_dt_loop orbit_type t0m t1m (pre ++ post) st w
  = (st' <- query_orbit_by_dt_loop orbit_type t0m t1m pre st ;;
     query_orbit_by_dt_loop orbit_type t0m t1m post st') w.
Proof.
  revert st w. induction pre as [|[m dt] pre IH]; intros st w; simpl.
  - reflexivity.
  - unfold bind.
    destruct (query_orbit_by_dt_step orbit_type t0m t1m st m dt w)
      as [[st1|e] w1]; [|reflexivity].
    rewrite IH. reflexivity.
Qed.

Lemma query_orbit_by_dt_loop_effect (orbit_type : string)
    (t0m t1m : Datetime.timedelta)
    (requests : list (string * Datetime.datetime)) (st : locals) (w : world) :
  exists qs,
    queries (snd (query_orbit_by_dt_loop orbit_type t0m t1m requests st w))
    = queries w ++ qs
    /\ (List.length qs <= 2 * List.length requests)%nat
    /\ Forall (fun q => exists m dt,
                 In (m, dt) requests
                 /\ (q = precise_query t0m t1m m dt
                     \/ q = restituted_query m dt)) qs
    /\ (String.eqb orbit_type "precise" = false ->
        Forall (fun q => q_producttype q = "AUX_RESORB") qs)
    /\ forall st',
         fst (query_orbit_by_dt_loop orbit_type t0m t1m requests st w) = Ok st' ->
         (exists extra, remaining_dates st' = remaining_dates st ++ extra
                        /\ incl extra requests)
         /\ (NoDup (map fst (query st)) -> NoDup (map fst (query st')))
         /\ forall kv, In kv (query st') ->
              In kv (query st)
              \/ exists q products,
                   In q qs /\ api_query q = Ok products /\ In kv products.
Proof.
  revert st w. induction requests as [|[m dt] requests IH]; intros st w.
  - exists []. simpl. split; [now rewrite app_nil_r|]. split; [lia|].
    split; [constructor|]. split; [constructor|].
    intros st' [= <-]. split; [exists []; now rewrite app_nil_r|].
    split; [easy|]. intros kv Hkv. now left.
  - simpl query_orbit_by_dt_loop. unfold bind.
    destruct (query_orbit_by_dt_step_effect orbit_type t0m t1m st m dt w)
      as (qs1 & Hqs1 & Hshape & Hres & Hok1).
    destruct (query_orbit_by_dt_step orbit_type t0m t1m st m dt w)
      as [[st1|e] w1]; simpl in Hqs1, Hok1.
    + destruct (IH st1 w1) as (qs2 & Hqs2 & Hlen & Hfrom & Hres2 & Hok2).
      exists (qs1 ++ qs2).
      split; [rewrite Hqs2, Hqs1; now rewrite app_assoc|].
      split.
      { rewrite length_app. simpl.
        assert (List.length qs1 <= 2)%nat
          by (destruct Hshape as [-> |[-> |[-> | ->]]]; simpl; lia).
        lia. }
      split.
      { apply Forall_app. split.
        - apply Forall_forall. intros q Hq. exists m, dt.
          split; [now left|].
          destruct Hshape as [-> |[-> |[-> | ->]]]; simpl in Hq;
            intuition (subst; auto).
        - eapply Forall_impl; [|exact Hfrom].
          intros q (m' & dt' & Hin & Hq). exists m', dt'.
          split; [now right | exact Hq]. }
      split.
      { intros Ho. apply Forall_app. split; [|now apply Hres2].
        destruct (Hres Ho) as [-> | ->]; repeat constructor. }
      intros st' Hst'. destruct (Hok1 st1 eq_refl) as (Hrem1 & Hnd1 & Hprov1).
      destruct (Hok2 st' Hst') as ((extra & Hrem2 & Hincl) & Hnd2 & Hprov2).
      split.
      { destruct Hrem1 as [Hrem1|Hrem1]; rewrite Hrem1 in Hrem2.
        - exists extra. split; [exact Hrem2|].
          intros x Hx. right. now apply Hincl.
        - exists ((m, dt) :: extra). rewrite <- app_assoc in Hrem2.
          split; [exact Hrem2|].
          intros x [<-|Hx]; [now left | right; now apply Hincl]. }
      split; [auto|].
      intros kv Hkv.
      destruct (Hprov2 kv Hkv) as [H|(q & ps & Hin & Ha & Hk)].
      * destruct (Hprov1 kv H) as [H'|(q & ps & Hin & Ha & Hk)]; [now left|].
        right. exists q, ps. split; [apply in_or_app; now left | now split].
      * right. exists q, ps. split; [apply in_or_app; now right | now split].
    + exists qs1. simpl. split; [exact Hqs1|].
      split.
      { assert (List.length qs1 <= 2)%nat
          by (destruct Hshape as [-> |[-> |[-> | ->]]]; simpl; lia).
        lia. }
      split.
      { apply Forall_forall. intros q Hq. exists m, dt.
        split; [now left|].
        destruct Hshape as [-> |[-> |[-> | ->]]]; simpl in Hq;
          intuition (subst; auto). }
      split.
      { intros Ho. destruct (Hres Ho) as [-> | ->]; repeat constructor. }
      intros st' Hst'. discriminate Hst'.
Qed.

(** The batch call and its loop: same queries, and the mapping of the last
    loop state as value. *)
Lemma query_orbit_by_dt_of_loop (missions : list string)
    (orbit_dts : list Datetime.datetime) (orbit_type : string)
    (t0m t1m : Datetime.timedelta) (w : world) :
  queries (snd (query_orbit_by_dt missions orbit_dts orbit_type t0m t1m w))
  = queries (snd (query_orbit_by_dt_loop orbit_type t0m t1m
                    (combine missions orbit_dts) (mkLocals [] []) w))
  /\ fst (query_orbit_by_dt missions orbit_dts orbit_type t0m t1m w)
     = match fst (query_orbit_by_dt_loop orbit_type t0m t1m
                    (combine missions orbit_dts) (mkLocals [] []) w) with
       | Ok st => Ok (query st)
       | Raise e => Raise e
       end.
Proof.
  unfold query_orbit_by_dt, bind.
  destruct (query_orbit_by_dt_loop orbit_type t0m t1m
              (combine missions orbit_dts) (mkLocals [] []) w)
    as [[st|e] w1]; simpl; [|now split].
  now destruct (remaining_dates st).
Qed.
End BatchFacts.

Section SelectOrbitFacts.
Context {P : ProductsModule} {API : Scihub.SentinelAPI}.
Import Scihub.


(** X4. One identifier that is not an orbit file name makes [_select_orbit]
    raise the constructor's exception, whatever the other products cover:
    all identifiers are parsed before the selector runs. *)
Theorem select_orbit_parse_error (pre post : dict product)
    (kv : string * product) (t0 t1 : Datetime.datetime) (e : exn) :
  Forall (fun kv' => exists o, new_SentinelOrbit (identifier (snd kv')) = Ok o)
         pre ->
  new_SentinelOrbit (identifier (snd kv)) = Raise e ->
  _select_orbit (pre ++ kv :: post) t0 t1 = Raise e.
Proof.
  intros Hpre Hkv. unfold _select_orbit.
  destruct (pre ++ kv :: post) as [|kv0 rest] eqn:E;
    [now destruct pre|]. rewrite <- E.
  unfold get_validity_info, dict_values. rewrite !map_app. simpl map.
  rewrite (result_map_raise new_SentinelOrbit _ _ _ e); [reflexivity| |exact Hkv].
  rewrite map_map. apply Forall_map. exact Hpre.
Qed.

(** X5. [query_orbit] sends one query, with the type, the platform
    [satellite_id[1:]], a begin position up to [t1] and an end position from
    [t0], when the satellite is S1A or S1B and the type is [AUX_POEORB] or
    [AUX_RESORB]; in every other case it raises [AssertionError] and sends
    and logs nothing. *)
Theorem query_orbit_checks_arguments (t0 t1 : Datetime.datetime)
    (satellite_id product_type : string) (w : world) :
  (valid_satellite satellite_id = true
   /\ (product_type = "AUX_POEORB" \/ product_type = "AUX_RESORB")
   /\ query_orbit t0 t1 satellite_id product_type w
      = (api_query (mkQuery product_type (tail_string satellite_id)
                            (None, Some t1) (Some t0, None)),
         asked (mkQuery product_type (tail_string satellite_id)
                        (None, Some t1) (Some t0, None)) w))
  \/ ((valid_satellite satellite_id = false
       \/ (product_type <> "AUX_POEORB" /\ product_type <> "AUX_RESORB"))
      /\ query_orbit t0 t1 satellite_id product_type w
         = (Raise AssertionError, w)).
Proof.
  destruct (valid_satellite satellite_id) eqn:Hm.
  - destruct (String.eqb_spec product_type "AUX_POEORB") as [Hp|Hp].
    + left. split; [reflexivity|]. split; [now left|].
      apply query_orbit_run; auto.
    + destruct (String.eqb_spec product_type "AUX_RESORB") as [Hr|Hr].
      * left. split; [reflexivity|]. split; [now right|].
        apply query_orbit_run; auto.
      * right. split; [right; now split|].
        unfold query_orbit, valid_satellite in *. rewrite Hm.
        apply String.eqb_neq in Hp, Hr. now rewrite Hp, Hr.
  - right. split; [now left|]. now apply query_orbit_invalid.
Qed.
End SelectOrbitFacts.


Lemma select_orbit_parse_error_witness :
  exists msg,
    @Scihub._select_orbit ProductsModel.products MoreSamples.answer_with_stray
      Samples.t_0226 Samples.t_0226_0001
    = Raise (ValueError msg).
Proof.
  eexists.
  apply (@select_orbit_parse_error ProductsModel.products
           [Catalogue.entry "uuid-1" Samples.poe_0226]
           [Catalogue.entry "uuid-2" Samples.poe_0226_new]
           ("uuid-9", Scihub.mkProduct "README.txt" "AUX_POEORB")).
  - repeat constructor. eexists. vm_compute. reflexivity.
  - vm_compute. reflexivity.
Defined.

Lemma combine_surplus_l {A B : Type} (l extra : list A) (l' : list B) :
  List.length l = List.length l' -> combine (l ++ extra) l' = combine l l'.
Proof.
  revert l'. induction l as [|a l IH]; intros [|b l'] H; simpl in *;
    try discriminate.
  - now destruct extra.
  - now rewrite IH by lia.
Qed.

Lemma combine_surplus_r {A B : Type} (l : list A) (l' extra : list B) :
  List.length l = List.length l' -> combine l (l' ++ extra) = combine l l'.
Proof.
  revert l'. induction l as [|a l IH]; intros [|b l'] H; simpl in *;
    try discriminate; [reflexivity|].
  now rewrite IH by lia.
Qed.

Section BatchTheorems.
Context {P : ProductsModule} {API : Scihub.SentinelAPI}.
Import Scihub.

(** X6. One request that raises ends the batch: when the requests before it
    went through and its iteration raises, [query_orbit_by_dt] raises the same
    exception; what was resolved before is not returned and no query is sent
    for the requests after it. *)
Theorem query_orbit_by_dt_aborts
    (pre post : list (string * Datetime.datetime)) (m : string)
    (dt : Datetime.datetime) (orbit_type : string)
    (t0m t1m : Datetime.timedelta) (w w1 w2 : world) (st1 : locals) (e : exn) :
  query_orbit_by_dt_loop orbit_type t0m t1m pre (mkLocals [] []) w
  = (Ok st1, w1) ->
  query_orbit_by_dt_step orbit_type t0m t1m st1 m dt w1 = (Raise e, w2) ->
  query_orbit_by_dt (map fst (pre ++ (m, dt) :: post))
                    (map snd (pre ++ (m, dt) :: post))
                    orbit_type t0m t1m w
  = (Raise e, w2).
Proof.
  intros Hpre Hstep. unfold query_orbit_by_dt. rewrite combine_fst_snd.
  unfold bind at 1. rewrite query_orbit_by_dt_loop_app.
  unfold bind at 1. rewrite Hpre. simpl. unfold bind at 1.
  now rewrite Hstep.
Qed.

(** X7. With an [orbit_type] other than the string [precise], only
    restituted queries are sent: no [AUX_POEORB] query is made for any
    request. *)
Theorem query_orbit_by_dt_restituted_only (missions : list string)
    (orbit_dts : list Datetime.datetime) (orbit_type : string)
    (t0m t1m : Datetime.timedelta) (w : world) :
  String.eqb orbit_type "precise" = false ->
  exists qs,
    queries (snd (query_orbit_by_dt missions orbit_dts orbit_type t0m t1m w))
    = queries w ++ qs
    /\ Forall (fun q => q_producttype q = "AUX_RESORB") qs.
Proof.
  intros Ho.
  destruct (query_orbit_by_dt_loop_effect orbit_type t0m t1m
              (combine missions orbit_dts) (mkLocals [] []) w)
    as (qs & Hqs & _ & _ & Hres & _).
  exists qs. split; [|now apply Hres].
  now rewrite (proj1 (query_orbit_by_dt_of_loop _ _ _ _ _ _)).
Qed.

(** X8. A batch sends at most two queries per request, and each query sent
    is the precise or the restituted query of one of its requests; requests
    are the pairs of [zip(missions, orbit_dts)]. This holds also when the call
    raises. *)
Theorem query_orbit_by_dt_query_count (missions : list string)
    (orbit_dts : list Datetime.datetime) (orbit_type : string)
    (t0m t1m : Datetime.timedelta) (w : world) :
  exists qs,
    queries (snd (query_orbit_by_dt missions orbit_dts orbit_type t0m t1m w))
    = queries w ++ qs
    /\ (List.length qs
        <= 2 * Nat.min (List.length missions) (List.length orbit_dts))%nat
    /\ Forall (fun q => exists m dt,
                 In (m, dt) (combine missions orbit_dts)
                 /\ (q = precise_query t0m t1m m dt
                     \/ q = restituted_query m dt)) qs.
Proof.
  destruct (query_orbit_by_dt_loop_effect orbit_type t0m t1m
              (combine missions orbit_dts) (mkLocals [] []) w)
    as (qs & Hqs & Hlen & Hfrom & _).
  exists qs. rewrite length_combine in Hlen.
  split; [now rewrite (proj1 (query_orbit_by_dt_of_loop _ _ _ _ _ _))|].
  now split.
Qed.

(** X9. The mapping a batch returns has distinct uuids, and each of its
    entries is an entry of an answer the catalogue gave to one of the queries
    of the batch. *)
Theorem query_orbit_by_dt_entries (missions : list string)
    (orbit_dts : list Datetime.datetime) (orbit_type : string)
    (t0m t1m : Datetime.timedelta) (w : world) (value : dict product) :
  fst (query_orbit_by_dt missions orbit_dts orbit_type t0m t1m w) = Ok value ->
  NoDup (map fst value)
  /\ forall kv, In kv value ->
       exists q products,
         In q (queries
                 (snd (query_orbit_by_dt missions orbit_dts orbit_type
                                         t0m t1m w)))
         /\ api_query q = Ok products /\ In kv products.
Proof.
  intros Hv.
  destruct (query_orbit_by_dt_of_loop missions orbit_dts orbit_type t0m t1m w)
    as [Hq Hf].
  rewrite Hf in Hv. rewrite Hq.
  destruct (query_orbit_by_dt_loop_effect orbit_type t0m t1m
              (combine missions orbit_dts) (mkLocals [] []) w)
    as (qs & Hqs & _ & _ & _ & Hok).
  destruct (fst (query_orbit_by_dt_loop orbit_type t0m t1m
                   (combine missions orbit_dts) (mkLocals [] []) w))
    as [st|e]; [|discriminate].
  injection Hv as <-. destruct (Hok st eq_refl) as (_ & Hnd & Hprov).
  split; [apply Hnd; constructor|].
  intros kv Hkv. destruct (Hprov kv Hkv) as [[]|(q & ps & Hin & Ha & Hk)].
  exists q, ps. rewrite Hqs. split; [apply in_or_app; now right | now split].
Qed.

(** X10. Lists of different lengths are not an error for the catalogue
    client: the missions or the times beyond the shorter list are ignored. *)
Theorem query_orbit_by_dt_ignores_surplus (missions more_missions : list string)
    (orbit_dts more_dts : list Datetime.datetime) (orbit_type : string)
    (t0m t1m : Datetime.timedelta) :
  List.length missions = List.length orbit_dts ->
  query_orbit_by_dt (missions ++ more_missions) orbit_dts orbit_type t0m t1m
  = query_orbit_by_dt missions orbit_dts orbit_type t0m t1m
  /\ query_orbit_by_dt missions (orbit_dts ++ more_dts) orbit_type t0m t1m
     = query_orbit_by_dt missions orbit_dts orbit_type t0m t1m.
Proof.
  intros H. unfold query_orbit_by_dt.
  now rewrite combine_surplus_l, combine_surplus_r.
Qed.
End BatchTheorems.

(** The second request names no known satellite: the answer to the first is
    lost and nothing is asked for the third. *)
Lemma query_orbit_by_dt_aborts_witness :
  @Scihub.query_orbit_by_dt ProductsModel.products
    Samples.catalogue_republished ["S1A"; "S1C"; "S1A"]
    [Samples.noon_0226; Samples.noon_0226; Samples.t_0226]
    "precise" Scihub.T0 Scihub.T1 Samples.quiet
  = (Raise AssertionError,
     Scihub.asked
       (Scihub.precise_query Scihub.T0 Scihub.T1 "S1A" Samples.noon_0226)
       Samples.quiet).
Proof.
  apply (@query_orbit_by_dt_aborts ProductsModel.products
           Samples.catalogue_republished
           [("S1A", Samples.noon_0226)] [("S1A", Samples.t_0226)]
           "S1C" Samples.noon_0226 "precise" Scihub.T0 Scihub.T1
           Samples.quiet
           (Scihub.asked
              (Scihub.precise_query Scihub.T0 Scihub.T1 "S1A"
                                    Samples.noon_0226)
              Samples.quiet)
           (Scihub.asked
              (Scihub.precise_query Scihub.T0 Scihub.T1 "S1A"
                                    Samples.noon_0226)
              Samples.quiet)
           (Scihub.mkLocals
              [] [Catalogue.entry "uuid-2" Samples.poe_0226_new]));
    vm_compute; reflexivity.
Defined.

Lemma query_orbit_by_dt_restituted_only_witness :
  exists qs,
    Scihub.queries
      (snd (@Scihub.query_orbit_by_dt ProductsModel.products
              Samples.catalogue_day_before ["S1A"] [Samples.noon_0226]
              "restituted" Scihub.T0 Scihub.T1 Samples.quiet))
    = Scihub.queries Samples.quiet ++ qs
    /\ Forall (fun q => Scihub.q_producttype q = "AUX_RESORB") qs.
Proof.
  apply (@query_orbit_by_dt_restituted_only ProductsModel.products
           Samples.catalogue_day_before).
  reflexivity.
Defined.

Lemma query_orbit_by_dt_entries_witness :
  NoDup (map fst [Catalogue.entry "uuid-2" Samples.poe_0226_new])
  /\ forall kv, In kv [Catalogue.entry "uuid-2" Samples.poe_0226_new] ->
       exists q products,
         In q (Scihub.queries
                 (snd (@Scihub.query_orbit_by_dt ProductsModel.products
                         Samples.catalogue_republished ["S1A"]
                         [Samples.noon_0226] "precise" Scihub.T0 Scihub.T1
                         Samples.quiet)))
         /\ @Scihub.api_query Samples.catalogue_republished q = Ok products
         /\ In kv products.
Proof.
  apply (@query_orbit_by_dt_entries ProductsModel.products
           Samples.catalogue_republished ["S1A"] [Samples.noon_0226]
           "precise" Scihub.T0 Scihub.T1 Samples.quiet).
  vm_compute. reflexivity.
Defined.

Lemma query_orbit_by_dt_ignores_surplus_witness :
  @Scihub.query_orbit_by_dt ProductsModel.products
    Samples.catalogue_republished (["S1A"] ++ ["S1B"; "S1A"])
    [Samples.noon_0226] "precise" Scihub.T0 Scihub.T1
  = @Scihub.query_orbit_by_dt ProductsModel.products
      Samples.catalogue_republished ["S1A"] [Samples.noon_0226]
      "precise" Scihub.T0 Scihub.T1.
Proof.
  apply (proj1 (@query_orbit_by_dt_ignores_surplus ProductsModel.products
                  Samples.catalogue_republished ["S1A"] ["S1B"; "S1A"]
                  [Samples.noon_0226] [] "precise" Scihub.T0 Scihub.T1
                  eq_refl)).
Defined.

(** ** More on links and file names *)

Lemma split_slash_nonempty (s : string) : Download.split_slash s <> [].
Proof.
  destruct s as [|c s]; simpl; [discriminate|].
  destruct (Ascii.eqb c "/"); [discriminate|].
  destruct (Download.split_slash s); discriminate.
Qed.

Lemma split_slash_no_slash (s x : string) :
  In x (Download.split_slash s) -> ~ In "/"%char (list_ascii_of_string x).
Proof.
  revert x. induction s as [|c s IH]; intros x; simpl.
  - intros [<-|[]] [].
  - destruct (Ascii.eqb_spec c "/") as [->|Hc].
    + intros [<-|H]; [intros [] | now apply IH].
    + destruct (Download.split_slash s) as [|h t] eqn:E.
      * intros [<-|[]]. simpl. intros [H|[]]. now apply Hc.
      * intros [<-|H].
        -- simpl. intros [Hx|Hx]; [now apply Hc|].
           apply (IH h); [now left | exact Hx].
        -- apply IH. now right.
Qed.

(** ["/".join(s.split("/")) == s] *)
Lemma split_slash_concat (s : string) :
  String.concat "/" (Download.split_slash s) = s.
Proof.
  induction s as [|c s IH]; simpl; [reflexivity|].
  pose proof (split_slash_nonempty s) as Hne.
  destruct (Ascii.eqb_spec c "/") as [->|Hc].
  - destruct (Download.split_slash s) as [|h t]; [easy|].
    simpl in *. now rewrite IH.
  - destruct (Download.split_slash s) as [|h t]; [easy|].
    destruct t as [|h' t]; simpl in *; now rewrite <- IH.
Qed.

Lemma string_app_assoc (a b c : string) :
  ((a ++ b) ++ c)%string = (a ++ (b ++ c))%string.
Proof.
  induction a as [|x a IH]; simpl; [reflexivity | now rewrite IH].
Qed.

Lemma concat_app_last (sep x : string) (init : list string) :
  init <> [] ->
  String.concat sep (init ++ [x]) = (String.concat sep init ++ sep ++ x)%string.
Proof.
  induction init as [|a init IH]; [easy|]. intros _.
  destruct init as [|b init].
  - reflexivity.
  - change (String.concat sep ((a :: b :: init) ++ [x]))
      with (a ++ sep ++ String.concat sep ((b :: init) ++ [x]))%string.
    rewrite IH by discriminate.
    change (String.concat sep (a :: b :: init))
      with (a ++ sep ++ String.concat sep (b :: init))%string.
    now rewrite !string_app_assoc.
Qed.

Lemma no_slash_not_prefixed (b : string) :
  ~ In "/"%char (list_ascii_of_string b) -> String.prefix "/" b = false.
Proof.
  destruct b as [|c b]; [reflexivity|]. intros H.
  change (String.prefix "/" (String c b))
    with (if Ascii.ascii_dec "/"%char c
          then String.prefix EmptyString b else false).
  destruct (Ascii.ascii_dec "/" c) as [<-|Hc]; [|reflexivity].
  exfalso. apply H. now left.
Qed.

(** [(p + "/").split("/") == p.split("/") + [""]] *)
Lemma split_slash_app_slash (p : string) :
  Download.split_slash (p ++ "/") = Download.split_slash p ++ [EmptyString].
Proof.
  induction p as [|c p IH]; simpl; [reflexivity|].
  destruct (Ascii.eqb c "/"); [now rewrite IH|].
  rewrite IH. pose proof (split_slash_nonempty p) as Hne.
  destruct (Download.split_slash p) as [|h t]; [easy | reflexivity].
Qed.

Lemma string_app_empty (s : string) : (s ++ EmptyString)%string = s.
Proof.
  induction s as [|c s IH]; simpl; [reflexivity | now rewrite IH].
Qed.

(** [s.endswith("/")] *)
Lemma ends_with_slash_iff (s : string) :
  Download.ends_with_slash s = true <-> exists p, s = (p ++ "/")%string.
Proof.
  unfold Download.ends_with_slash, Download.basename. split.
  - intros H. pose proof (split_slash_concat s) as Hrt.
    pose proof (split_slash_nonempty s) as Hne.
    destruct (exists_last Hne) as (init & x & E). rewrite E in *.
    rewrite last_last in H.
    destruct init as [|a init]; [discriminate H|].
    assert (x = EmptyString) as ->.
    { destruct init; simpl in H; now apply String.eqb_eq in H. }
    rewrite concat_app_last in Hrt by discriminate.
    exists (String.concat "/" (a :: init)). now rewrite <- Hrt.
  - intros [p ->]. rewrite split_slash_app_slash, last_last.
    pose proof (split_slash_nonempty p) as Hne.
    destruct (Download.split_slash p) as [|h [|h' t]]; [easy | |]; reflexivity.
Qed.

(** X11. A file is saved directly in [save_dir], under the text that follows
    the last ['/'] of its link: the name has no ['/'], the link is a prefix
    that is empty or ends in ['/'] followed by the name, and the path is
    [save_dir] and the name, with nothing between them when [save_dir] is
    empty or ends in ['/'] and with one ['/'] between them otherwise. *)
Theorem saved_path_in_save_dir (save_dir link : string) :
  ~ In "/"%char (list_ascii_of_string (Download.basename link))
  /\ (exists prefix,
        link = (prefix ++ Download.basename link)%string
        /\ (prefix = EmptyString \/ exists p, prefix = (p ++ "/")%string))
  /\ ((save_dir = EmptyString \/ exists p, save_dir = (p ++ "/")%string) ->
      Download.target save_dir link
      = (save_dir ++ Download.basename link)%string)
  /\ (save_dir <> EmptyString ->
      (forall p, save_dir <> (p ++ "/")%string) ->
      Download.target save_dir link
      = (save_dir ++ "/" ++ Download.basename link)%string).
Proof.
  assert (~ In "/"%char (list_ascii_of_string (Download.basename link))) as Hns.
  { unfold Download.basename. apply (split_slash_no_slash link).
    pose proof (split_slash_nonempty link) as Hne.
    destruct (Download.split_slash link) as [|h t]; [easy|].
    apply (@exists_last _ (h :: t)) in Hne. destruct Hne as (init & x & ->).
    rewrite last_last. apply in_or_app. right. now left. }
  split; [exact Hns|]. split; [|split].
  - pose proof (split_slash_concat link) as Hrt.
    pose proof (split_slash_nonempty link) as Hne.
    unfold Download.basename.
    destruct (exists_last Hne) as (init & x & E). rewrite E in *.
    rewrite last_last. destruct init as [|a init].
    + exists EmptyString. simpl in Hrt. split; [now rewrite Hrt | now left].
    + rewrite concat_app_last in Hrt by discriminate.
      exists (String.concat "/" (a :: init) ++ "/")%string. split.
      * rewrite <- Hrt at 1. now rewrite string_app_assoc.
      * right. now exists (String.concat "/" (a :: init)).
  - intros Hdir. unfold Download.target, Download.path_join.
    rewrite (no_slash_not_prefixed _ Hns).
    destruct Hdir as [-> | Hp]; [reflexivity|].
    apply ends_with_slash_iff in Hp. rewrite Hp.
    now rewrite Bool.orb_true_r.
  - intros Hne Hp. unfold Download.target, Download.path_join.
    rewrite (no_slash_not_prefixed _ Hns).
    destruct (String.eqb_spec save_dir EmptyString) as [E|_]; [easy|].
    destruct (Download.ends_with_slash save_dir) eqn:E; [|reflexivity].
    apply ends_with_slash_iff in E. destruct E as [p E]. now destruct (Hp p).
Qed.

(** The precise file of a page of the archive, saved into the directory
    [orbits/] and into the directory [.]. *)
Lemma saved_path_in_save_dir_witness :
  Download.target "orbits/" Samples.link_0226
  = ("orbits/" ++ Download.basename Samples.link_0226)%string
  /\ Download.target "." Samples.link_0226
     = ("." ++ "/" ++ Download.basename Samples.link_0226)%string.
Proof.
  split.
  - apply (proj1 (proj2 (proj2 (saved_path_in_save_dir
                                  "orbits/" Samples.link_0226)))).
    right. now exists "orbits".
  - apply (proj2 (proj2 (proj2 (saved_path_in_save_dir
                                  "." Samples.link_0226)))).
    + discriminate.
    + intros [|c [|c' p]] H; discriminate H.
Defined.

(** ** More on the archive client *)

Section EofListFacts.
Context {P : ProductsModule} {A : Download.Archive}.
Import Download.

Lemma mission_links_some (url m : string) (names : list string) :
  mission_links url (Some m) names
  = Ok (map (fun name => (url ++ name)%string) (filter (String.prefix m) names)).
Proof.
  induction names as [|name names IH]; simpl; [reflexivity|].
  rewrite IH. simpl. now destruct (String.prefix m name).
Qed.

Lemma mission_links_none (url : string) (names : list string) :
  mission_links url None names
  = match names with
    | [] => Ok []
    | _ :: _ => Raise TypeError
    end.
Proof. now destruct names. Qed.

Lemma read_page_listed (mission : option string) (url : string)
    (links : list string) :
  read_page mission url = Listed links ->
  exists m r,
    mission = Some m /\ requests_get url = Ok r /\ links <> []
    /\ links = map (fun name => (url ++ name)%string)
                   (filter (String.prefix m) (eof_links (text r))).
Proof.
  unfold read_page.
  destruct (requests_get url) as [r|e]; [|discriminate].
  destruct (status_code r =? 404); [discriminate|].
  destruct ((400 <=? status_code r) && (status_code r <? 600)); [discriminate|].
  destruct mission as [m|].
  - rewrite mission_links_some.
    destruct (map _ (filter (String.prefix m) (eof_links (text r))))
      as [|l ls] eqn:E; [discriminate|].
    intros [= <-]. exists m, r. now repeat split.
  - rewrite mission_links_none. now destruct (eof_links (text r)).
Qed.

(** X12. What [eof_list] returns is never empty; it is tagged with the tier
    of the page it was read from, precise or restituted, and consists of the
    links that the link finder yields for the text of that page and whose
    name starts with the mission, each prefixed with the page's url, in the
    order in which the link finder yields them. *)
Theorem eof_list_result (start_dt : Datetime.datetime)
    (mission : option string) (w w' : world) (links : list string)
    (tier : string) :
  Range.archive_search start_dt ->
  eof_list start_dt mission PRECISE_ORBIT w = (Ok (links, tier), w') ->
  links <> []
  /\ (tier = PRECISE_ORBIT \/ tier = RESTITUTED_ORBIT)
  /\ exists m r,
       mission = Some m
       /\ requests_get (page_url tier start_dt) = Ok r
       /\ links = map (fun name => (page_url tier start_dt ++ name)%string)
                      (filter (String.prefix m) (eof_links (text r))).
Proof.
  intros _. rewrite eof_list_precise_run.
  destruct (read_page mission (page_url PRECISE_ORBIT start_dt))
    as [ls| | |e] eqn:Ep; try discriminate.
  - intros [= <- <- _].
    destruct (read_page_listed _ _ _ Ep) as (m & r & Hm & Hr & Hne & Hl).
    split; [exact Hne|]. split; [now left|]. now exists m, r.
  - rewrite eof_list_restituted_run.
    destruct (read_page mission (page_url RESTITUTED_ORBIT start_dt))
      as [ls| | |e] eqn:Er; try discriminate.
    intros [= <- <- _].
    destruct (read_page_listed _ _ _ Er) as (m & r & Hm & Hr & Hne & Hl).
    split; [exact Hne|]. split; [now right|]. now exists m, r.
  - rewrite eof_list_restituted_run.
    destruct (read_page mission (page_url RESTITUTED_ORBIT start_dt))
      as [ls| | |e] eqn:Er; try discriminate.
    intros [= <- <- _].
    destruct (read_page_listed _ _ _ Er) as (m & r & Hm & Hr & Hne & Hl).
    split; [exact Hne|]. split; [now right|]. now exists m, r.
Qed.



End EofListFacts.

Lemma eof_list_result_witness :
  Samples.listing_0319 <> []
  /\ exists m r,
       Some "S1A" = Some m
       /\ @Download.requests_get Samples.archive_precise
            (@Download.page_url Samples.archive_precise
               Download.PRECISE_ORBIT Samples.noon_0226)
          = Ok r
       /\ map (fun name => (Samples.poe_page_0319 ++ name)%string)
              Samples.listing_0319
          = map (fun name =>
                   (@Download.page_url Samples.archive_precise
                      Download.PRECISE_ORBIT Samples.noon_0226 ++ name)%string)
                (filter (String.prefix m)
                        (@Download.eof_links Samples.archive_precise
                           (Download.text r))).
Proof.
  destruct (@eof_list_result Samples.archive_precise Samples.noon_0226
              (Some "S1A") Samples.empty_world
              (snd (@Download.eof_list Samples.archive_precise
                      Samples.noon_0226 (Some "S1A") Download.PRECISE_ORBIT
                      Samples.empty_world))
              (map (fun name => (Samples.poe_page_0319 ++ name)%string)
                   Samples.listing_0319)
              Download.PRECISE_ORBIT)
    as (Hne & _ & Hlinks).
  - solve_in_range.
  - vm_compute. reflexivity.
  - split; [unfold Samples.listing_0319; discriminate | exact Hlinks].
Defined.


(** ** More on [download_eofs] *)

Section DownloadEofsFacts.
Context {P : ProductsModule} {A : Download.Archive}.
Import Download.

Lemma read_page_none_not_listed (url : string) (links : list string) :
  read_page None url <> Listed links.
Proof.
  intros H. destruct (read_page_listed _ _ _ H) as (m & _ & Hm & _).
  discriminate.
Qed.

(** Without a mission [eof_list] cannot return. *)
Lemma eof_list_none_raises (dt : Datetime.datetime) (w : world) :
  exists e w', eof_list dt None PRECISE_ORBIT w = (Raise e, w').
Proof.
  rewrite eof_list_precise_run.
  destruct (read_page None (page_url PRECISE_ORBIT dt)) as [ls| | |e] eqn:Ep.
  - now destruct (read_page_none_not_listed _ _ Ep).
  - rewrite eof_list_restituted_run.
    destruct (read_page None (page_url RESTITUTED_ORBIT dt))
      as [ls| | |e] eqn:Er; try (eexists; eexists; reflexivity).
    now destruct (read_page_none_not_listed _ _ Er).
  - rewrite eof_list_restituted_run.
    destruct (read_page None (page_url RESTITUTED_ORBIT dt))
      as [ls| | |e] eqn:Er; try (eexists; eexists; reflexivity).
    now destruct (read_page_none_not_listed _ _ Er).
  - eexists; eexists; reflexivity.
Qed.

Lemma _download_and_write_none (dt : Datetime.datetime) (save_dir : string)
    (w : world) :
  forall fs,
    fst (_download_and_write None dt save_dir w) <> Ok (Some fs).
Proof.
  intros fs. destruct (eof_list_none_raises dt w) as (e & w' & He).
  unfold _download_and_write. unfold bind at 1, try_except, bind at 1.
  rewrite He. destruct (is_ValueError e); simpl; discriminate.
Qed.

Lemma submit_all_returns (save_dir : string)
    (reqs : list (option string * Datetime.datetime)) (w : world) :
  exists rs w',
    submit_all save_dir reqs w = (Ok rs, w')
    /\ Forall2 (fun req rd =>
                  snd rd = snd req
                  /\ exists w0,
                       fst rd
                       = fst (_download_and_write (fst req) (snd req)
                                                  save_dir w0))
               reqs rs.
Proof.
  revert w. induction reqs as [|[m dt] reqs IH]; intros w; simpl.
  - exists [], w. split; [reflexivity | constructor].
  - unfold bind at 1, apply_async.
    destruct (_download_and_write m dt save_dir w) as [r w1] eqn:E.
    destruct (IH w1) as (rs & w' & Hrs & Hall).
    exists ((r, dt) :: rs), w'. unfold bind, ret. rewrite Hrs. simpl.
    split; [reflexivity|]. constructor; [|exact Hall].
    split; [reflexivity|]. exists w. simpl. now rewrite E.
Qed.

(** The collecting loop stops at the first result that is an exception or
    [None]. *)
Lemma collect_raises
    (rs : list (result (option (list string)) * Datetime.datetime))
    (filenames : list string) (w : world) :
  Exists (fun rd => forall fs, fst rd <> Ok (Some fs)) rs ->
  exists e, fst (collect rs filenames w) = Raise e.
Proof.
  intros H. revert filenames w.
  induction rs as [|[r dt] rs IH]; intros filenames w; [inversion H|].
  simpl. unfold bind at 1, lift.
  destruct r as [[fs|]|e].
  - unfold bind, emit, modify. simpl.
    apply IH. inversion H as [? ? Hhd|]; subst; [|assumption].
    now destruct (Hhd fs).
  - unfold bind, emit, modify. simpl. now exists TypeError.
  - now exists e.
Qed.

(** X15. Called without missions, [download_eofs] cannot succeed on any
    non-empty list of times: every request is made with the mission [None],
    the first page that has a link raises [TypeError] in
    [link.startswith(None)], and a request that finds no page adds [None] to
    the results. *)
Theorem download_eofs_without_missions (dt : Datetime.datetime)
    (orbit_dts : list Datetime.datetime) (save_dir : string) (w : world) :
  exists e, fst (download_eofs (dt :: orbit_dts) [] save_dir w) = Raise e.
Proof.
  change (download_eofs (dt :: orbit_dts) [] save_dir w)
    with ((result_dt_dict <-
             submit_all save_dir
               (map (fun dt => (@None string, dt)) (dt :: orbit_dts)) ;;
           collect result_dt_dict []) w).
  destruct (submit_all_returns save_dir
              (map (fun dt => (@None string, dt)) (dt :: orbit_dts)) w)
    as (rs & w' & Hrs & Hall).
  unfold bind at 1. rewrite Hrs.
  apply collect_raises. simpl in Hall.
  inversion Hall as [|? rd ? rs' [_ [w0 Hrd]] _]; subst.
  apply Exists_cons_hd. intros fs. rewrite Hrd.
  apply _download_and_write_none.
Qed.

(** X16. The two checks of [download_eofs] come before any request: a
    non-empty list of missions none of which is S1A or S1B, or whose length
    differs from that of the times, raises [ValueError] and leaves the world
    as it was. *)
Theorem download_eofs_validates_first (orbit_dts : list Datetime.datetime)
    (missions : list string) (save_dir : string) (w : world) :
  missions <> [] ->
  forallb (fun m => negb (known_mission m)) missions = true
  \/ List.length missions <> List.length orbit_dts ->
  exists msg,
    download_eofs orbit_dts missions save_dir w = (Raise (ValueError msg), w).
Proof.
  intros Hne Hbad. unfold download_eofs.
  destruct missions as [|m ms]; [easy|]. simpl is_empty. simpl negb.
  rewrite !andb_true_l.
  destruct (forallb (fun m => negb (known_mission m)) (m :: ms)) eqn:E.
  - now eexists.
  - destruct Hbad as [Hbad|Hbad]; [discriminate|].
    apply Nat.eqb_neq in Hbad. rewrite Hbad. now eexists.
Qed.

Lemma in_combine_map_some (missions : list string)
    (orbit_dts : list Datetime.datetime) (m : string) (dt : Datetime.datetime) :
  In (m, dt) (combine missions orbit_dts) ->
  In (Some m, dt) (combine (map Some missions) orbit_dts).
Proof.
  revert orbit_dts. induction missions as [|m0 ms IH]; intros [|d ds]; simpl;
    try easy.
  intros [[= -> ->]|H]; [now left | right; now apply IH].
Qed.

(** X17. A batch with a request for which neither tier's page offers a link
    does not return: the worker of that request ends in a bare [return], and
    [filenames.extend(None)] raises [TypeError] unless an earlier result has
    already raised. *)
Theorem download_eofs_unresolved_raises (orbit_dts : list Datetime.datetime)
    (missions : list string) (save_dir : string) (w : world)
    (m : string) (dt : Datetime.datetime) :
  In (m, dt) (combine missions orbit_dts) ->
  unavailable (read_page (Some m) (page_url PRECISE_ORBIT dt)) = true ->
  unavailable (read_page (Some m) (page_url RESTITUTED_ORBIT dt)) = true ->
  exists e, fst (download_eofs orbit_dts missions save_dir w) = Raise e.
Proof.
  intros Hin Hp Hr. unfold download_eofs.
  destruct (negb (is_empty missions)
            && forallb (fun m => negb (known_mission m)) missions);
    [now eexists|].
  destruct (negb (is_empty missions)
            && negb (Nat.eqb (List.length missions) (List.length orbit_dts)));
    [now eexists|].
  destruct missions as [|m0 ms] eqn:Em; [destruct Hin|]. rewrite <- Em in *.
  replace (is_empty missions) with false by now rewrite Em.
  destruct (submit_all_returns save_dir
              (combine (map Some missions) orbit_dts) w)
    as (rs & w' & Hrs & Hall).
  unfold bind at 1. rewrite Hrs. apply collect_raises.
  apply in_combine_map_some in Hin.
  clear Hrs. induction Hall as [|req rd reqs rs' [_ [w0 Hrd]] _ IH];
    [destruct Hin|].
  destruct Hin as [->|Hin]; [|apply Exists_cons_tl; now apply IH].
  apply Exists_cons_hd. intros fs. rewrite Hrd. simpl.
  destruct (_download_and_write_unavailable (Some m) dt save_dir w0 Hp Hr)
    as (msg & w1 & Hw & _).
  rewrite Hw. discriminate.
Qed.
End DownloadEofsFacts.

Lemma download_eofs_validates_first_witness :
  (exists msg,
     @Download.download_eofs ProductsModel.products Samples.archive_precise
       [Samples.noon_0226] ["S2A"] "." Samples.empty_world
     = (Raise (ValueError msg), Samples.empty_world))
  /\ exists msg,
       @Download.download_eofs ProductsModel.products Samples.archive_precise
         [Samples.noon_0226] ["S1A"; "S1B"] "." Samples.empty_world
       = (Raise (ValueError msg), Samples.empty_world).
Proof.
  split.
  - apply (@download_eofs_validates_first ProductsModel.products
             Samples.archive_precise); [discriminate | now left].
  - apply (@download_eofs_validates_first ProductsModel.products
             Samples.archive_precise); [discriminate | right; discriminate].
Defined.

Lemma download_eofs_unresolved_raises_witness :
  exists e,
    fst (@Download.download_eofs ProductsModel.products
           Samples.archive_precise
           [Samples.noon_0226; Samples.noon_0226] ["S1A"; "S1B"] "."
           Samples.empty_world)
    = Raise e.
Proof.
  apply (@download_eofs_unresolved_raises ProductsModel.products
           Samples.archive_precise
           [Samples.noon_0226; Samples.noon_0226] ["S1A"; "S1B"] "."
           Samples.empty_world "S1B" Samples.noon_0226).
  - right. left. reflexivity.
  - vm_compute. reflexivity.
  - vm_compute. reflexivity.
Defined.

(** ** More on the download loop *)

Section SaveLinksFacts.
Context {P : ProductsModule} {A : Download.Archive}.
Import Download.






End SaveLinksFacts.




(** ** More on the deduplicator and the precise-window filter *)

Lemma date_bounds (t : Datetime.datetime) :
  Datetime.date t * Datetime.us_per_day <= t
  < (Datetime.date t + 1) * Datetime.us_per_day.
Proof.
  unfold Datetime.date.
  assert (0 < Datetime.us_per_day) as Hpos by reflexivity.
  pose proof (Z.mul_div_le t _ Hpos).
  pose proof (Z.mul_succ_div_gt t _ Hpos). lia.
Qed.

Lemma filter_idempotent {T : Type} (f : T -> bool) (l : list T) :
  filter f (filter f l) = filter f l.
Proof.
  induction l as [|x l IH]; simpl; [reflexivity|].
  destruct (f x) eqn:E; simpl; [rewrite E|]; now rewrite ?IH.
Qed.

Lemma Forall_filter {T : Type} (Q : T -> Prop) (f : T -> bool) (l : list T) :
  Forall Q l -> Forall Q (filter f l).
Proof.
  intros H. apply Forall_forall. intros x Hx. apply filter_In in Hx.
  rewrite Forall_forall in H. now apply H.
Qed.

Section FilterFacts.
Context {P : ProductsModule} {A : Download.Archive}.
Import Download.

Lemma link_straddles_day (d d' : Datetime.datetime) (link : string) :
  Datetime.date d = Datetime.date d' ->
  link_straddles d link = link_straddles d' link.
Proof.
  intros H. unfold link_straddles, straddles.
  destruct (new_SentinelOrbit (basename link)); [|reflexivity].
  now rewrite !date_minus_day, !date_plus_day, H.
Qed.

(** X21. The precise-window filter looks at the calendar day of the target
    only: two targets on the same day keep the same links. Filtering again
    with the same target changes nothing. *)
Theorem pick_precise_file_day_only (links : list string) :
  Forall parses links ->
  (forall d d', Datetime.date d = Datetime.date d' ->
                _pick_precise_file links d = _pick_precise_file links d')
  /\ (forall d out, _pick_precise_file links d = Ok out ->
                    _pick_precise_file out d = Ok out).
Proof.
  intros Hall. split.
  - intros d d' Hd. rewrite !_pick_precise_file_filter by exact Hall.
    f_equal. apply filter_ext. intros link. now apply link_straddles_day.
  - intros d out. rewrite _pick_precise_file_filter by exact Hall.
    intros [= <-]. rewrite _pick_precise_file_filter
      by now apply Forall_filter.
    now rewrite filter_idempotent.
Qed.

(** X22. A file that passes the precise-window filter is valid during the
    whole target day: its validity window holds every instant of the
    calendar day of the target. *)
Theorem pick_precise_file_covers_day (links out : list string)
    (sent_date : Datetime.datetime) :
  Forall parses links ->
  _pick_precise_file links sent_date = Ok out ->
  forall link, In link out ->
    exists so,
      new_SentinelOrbit (basename link) = Ok so
      /\ forall t, Datetime.date t = Datetime.date sent_date ->
                   fully_covers t t so.
Proof.
  intros Hall. rewrite _pick_precise_file_filter by exact Hall.
  intros [= <-] link Hin. apply filter_In in Hin. destruct Hin as [Hin Hs].
  rewrite Forall_forall in Hall. destruct (Hall link Hin) as [so Hso].
  unfold link_straddles in Hs. rewrite Hso in Hs.
  apply straddles_iff in Hs. destruct Hs as [Hstart Hstop].
  exists so. split; [exact Hso|]. intros t Ht. unfold fully_covers.
  pose proof (date_bounds t) as Bt.
  pose proof (date_bounds (start_time so)) as Bstart.
  pose proof (date_bounds (stop_time so)) as Bstop.
  rewrite Hstart in Bstart. rewrite Hstop in Bstop.
  rewrite <- Ht in Bstart, Bstop.
  assert (0 < Datetime.us_per_day) by reflexivity. nia.
Qed.

(** X23. Deduplicating twice is deduplicating once. *)
Theorem dedupe_links_idempotent (links out : list string) :
  Forall parses links ->
  _dedupe_links links = Ok out ->
  _dedupe_links out = Ok out.
Proof.
  intros Hall. destruct links as [|first rest]; [discriminate|].
  inversion Hall as [|? ? [orb1 H1] Hrest]; subst.
  rewrite (_dedupe_links_filter _ _ _ H1 Hrest). intros [= <-].
  rewrite (_dedupe_links_filter _ _ _ H1) by now apply Forall_filter.
  now rewrite filter_idempotent.
Qed.





End FilterFacts.

Lemma three_links_parse :
  Forall (@Download.parses ProductsModel.products)
    [Samples.link_0225; Samples.link_0226; Samples.link_0227].
Proof.
  repeat constructor; eexists; vm_compute; reflexivity.
Defined.

Lemma pick_precise_file_day_only_witness :
  @Download._pick_precise_file ProductsModel.products
    [Samples.link_0225; Samples.link_0226; Samples.link_0227]
    Samples.noon_0226
  = @Download._pick_precise_file ProductsModel.products
      [Samples.link_0225; Samples.link_0226; Samples.link_0227]
      Samples.t_0226_0001.
Proof.
  apply (proj1 (@pick_precise_file_day_only ProductsModel.products
                  [Samples.link_0225; Samples.link_0226; Samples.link_0227]
                  three_links_parse)).
  vm_compute. reflexivity.
Defined.

Lemma pick_precise_file_covers_day_witness :
  exists so,
    ProductsModel.parse_orbit (Download.basename Samples.link_0226) = Ok so
    /\ forall t, Datetime.date t = Datetime.date Samples.noon_0226 ->
                 fully_covers t t so.
Proof.
  apply (@pick_precise_file_covers_day ProductsModel.products
           [Samples.link_0225; Samples.link_0226; Samples.link_0227]
           [Samples.link_0226] Samples.noon_0226 three_links_parse).
  - vm_compute. reflexivity.
  - now left.
Defined.

Lemma dedupe_links_idempotent_witness :
  @Download._dedupe_links ProductsModel.products
    [Samples.listed_0224; Samples.listed_0225; Samples.listed_0225_again]
  = Ok [Samples.listed_0224; Samples.listed_0225; Samples.listed_0225_again].
Proof.
  apply (@dedupe_links_idempotent ProductsModel.products
           [Samples.listed_0224; Samples.listed_0225;
            Samples.listed_0225_again; Samples.listed_0224_again]
           _ sample_links_parse).
  vm_compute. reflexivity.
Defined.



(** ** The ASF client *)

Section AsfFacts.
Context {P : ProductsModule} {A : Download.Archive}.
Import Download.

(** X26. [ASFClient.get_download_url] never gives a url: whenever it returns,
    it returns [None]. It reads the listing without a look at the status of
    the answer; when the names on it are orbit file names it returns [None]
    if the validity window of one of them holds [dt], and raises
    [ValidityError] if none does. *)
Theorem get_download_url_returns_nothing (dt : Datetime.datetime) (w : world) :
  (forall v, fst (ASF.get_download_url dt w) = Ok v -> v = None)
  /\ (forall resp orbits,
        requests_get ASF.url = Ok resp ->
        result_map new_SentinelOrbit (eof_links (text resp)) = Ok orbits ->
        ((exists o, In o orbits /\ start_time o <= dt <= stop_time o) ->
         fst (ASF.get_download_url dt w) = Ok None)
        /\ ((forall o, In o orbits -> ~ (start_time o <= dt <= stop_time o)) ->
            fst (ASF.get_download_url dt w) = Raise ValidityError)).
Proof.
  unfold ASF.get_download_url, ASF.get_eof_list.
  unfold bind, get, modify, lift, ret. simpl.
  split.
  - intros v. destruct (requests_get ASF.url) as [resp|e]; [|discriminate].
    destruct (result_map new_SentinelOrbit (eof_links (text resp)))
      as [orbits|e]; [|discriminate].
    destruct (lastval_cover dt dt orbits); [|discriminate].
    now intros [= <-].
  - intros resp orbits -> ->. split.
    + intros (o & Hin & Ho).
      destruct (lastval_cover_some dt dt orbits o Hin) as [f ->];
        [|reflexivity].
      apply covers_iff. unfold fully_covers. lia.
    + intros Hno.
      rewrite (proj2 (lastval_cover_raise_iff dt dt orbits)); [reflexivity|].
      intros c Hc. apply covers_false_iff. unfold fully_covers.
      specialize (Hno c Hc). lia.
Qed.
End AsfFacts.

Lemma get_download_url_returns_nothing_witness :
  fst (@ASF.get_download_url ProductsModel.products MorePages.archive_asf
         Samples.noon_0226 Samples.empty_world)
  = Ok None
  /\ fst (@ASF.get_download_url ProductsModel.products MorePages.archive_asf
            (Datetime.mk_datetime 2021 3 1 0 0 0) Samples.empty_world)
     = Raise ValidityError.
Proof.
  split.
  - apply (proj1 (proj2 (@get_download_url_returns_nothing
                           ProductsModel.products MorePages.archive_asf
                           Samples.noon_0226 Samples.empty_world)
                    _ [Samples.orbit_of Samples.poe_0225;
                       Samples.orbit_of Samples.poe_0226]
                    eq_refl eq_refl)).
    exists (Samples.orbit_of Samples.poe_0226).
    split; [right; now left|]. split; vm_compute; discriminate.
  - apply (proj2 (proj2 (@get_download_url_returns_nothing
                           ProductsModel.products MorePages.archive_asf
                           (Datetime.mk_datetime 2021 3 1 0 0 0)
                           Samples.empty_world)
                    _ [Samples.orbit_of Samples.poe_0225;
                       Samples.orbit_of Samples.poe_0226]
                    eq_refl eq_refl)).
    intros o [<-|[<-|[]]] [_ H]; vm_compute in H; now apply H.
Defined.

(** ** One request, from the page to the disk *)

Section SingleRequest.
Context {P : ProductsModule} {A : Download.Archive}.
Import Download.

End SingleRequest.


(** ** What becomes of a request in the batch call *)

Section UnresolvedBatch.
Context {P : ProductsModule} {API : Scihub.SentinelAPI}.
Import Scihub.

Lemma truthy_result_dict (res : option (dict product)) :
  truthy res = true -> result_dict res <> [].
Proof.
  destruct res as [[|kv d]|]; simpl; intros H; [discriminate H| |discriminate H].
  intros H'. discriminate H'.
Qed.

(** The restituted attempt, when it completes, has resolved the request from
    the restituted answer or recorded it. *)
Lemma try_resorb_outcome (st st' : locals) (m : string)
    (dt : Datetime.datetime) (w w' : world) :
  try_resorb st m dt w = (Ok st', w') ->
  (remaining_dates st' = remaining_dates st ++ [(m, dt)]
   /\ query st' = query st)
  \/ (remaining_dates st' = remaining_dates st
      /\ exists products sel,
           api_query (restituted_query m dt) = Ok products
           /\ sel <> [] /\ incl sel products
           /\ query st' = dict_update (query st) sel).
Proof.
  destruct (valid_satellite m) eqn:Hm.
  - rewrite try_resorb_run by exact Hm.
    destruct (api_query (restituted_query m dt)) as [products|e] eqn:Hq;
      cbv iota beta; [|intros H; discriminate H].
    destruct (select_if_any products dt) as [res|e] eqn:Hsel;
      cbv iota beta; [|intros H; discriminate H].
    intros [= <- _]. destruct (truthy res) eqn:Ht; simpl.
    + right. split; [reflexivity|]. exists products, (result_dict res).
      split; [reflexivity|]. split; [now apply truthy_result_dict|].
      split; [|reflexivity].
      intros kv Hkv. now apply (select_if_any_entries _ _ _ _ Hsel).
    + left. now split.
  - unfold try_resorb, bind. rewrite query_orbit_invalid by exact Hm.
    intros H. discriminate H.
Qed.

(** An iteration that completes has resolved its request or recorded it. *)
Lemma query_orbit_by_dt_step_outcome (orbit_type : string)
    (t0m t1m : Datetime.timedelta) (st st' : locals) (m : string)
    (dt : Datetime.datetime) (w w' : world) :
  query_orbit_by_dt_step orbit_type t0m t1m st m dt w = (Ok st', w') ->
  (remaining_dates st' = remaining_dates st ++ [(m, dt)]
   /\ query st' = query st)
  \/ (remaining_dates st' = remaining_dates st
      /\ exists q products sel,
           (q = precise_query t0m t1m m dt \/ q = restituted_query m dt)
           /\ api_query q = Ok products
           /\ sel <> [] /\ incl sel products
           /\ query st' = dict_update (query st) sel).
Proof.
  assert (forall w0,
            try_resorb st m dt w0 = (Ok st', w') ->
            (remaining_dates st' = remaining_dates st ++ [(m, dt)]
             /\ query st' = query st)
            \/ (remaining_dates st' = remaining_dates st
                /\ exists q products sel,
                     (q = precise_query t0m t1m m dt
                      \/ q = restituted_query m dt)
                     /\ api_query q = Ok products
                     /\ sel <> [] /\ incl sel products
                     /\ query st' = dict_update (query st) sel)) as Hres.
  { intros w0 H.
    destruct (try_resorb_outcome _ _ _ _ _ _ H)
      as [Hrec | (Hrem & products & sel & Hq & Hne & Hincl & Hupd)];
      [now left|].
    right. split; [exact Hrem|].
    exists (restituted_query m dt), products, sel. auto. }
  destruct (String.eqb orbit_type "precise") eqn:Ho.
  - apply String.eqb_eq in Ho. subst orbit_type.
    destruct (valid_satellite m) eqn:Hm.
    + rewrite query_orbit_by_dt_step_precise_run by exact Hm.
      destruct (api_query (precise_query t0m t1m m dt)) as [products|e] eqn:Hq;
        cbv iota beta; [|intros H; discriminate H].
      destruct (select_if_any products dt) as [res|e] eqn:Hsel;
        cbv iota beta; [|intros H; discriminate H].
      destruct (truthy res) eqn:Ht; [|apply Hres].
      intros [= <- _]. simpl. right. split; [reflexivity|].
      exists (precise_query t0m t1m m dt), products, (result_dict res).
      split; [now left|]. split; [exact Hq|].
      split; [now apply truthy_result_dict|]. split; [|reflexivity].
      intros kv Hkv. now apply (select_if_any_entries _ _ _ _ Hsel).
    + unfold query_orbit_by_dt_step. simpl String.eqb. cbv iota.
      unfold bind. rewrite query_orbit_invalid by exact Hm.
      intros H. discriminate H.
  - rewrite query_orbit_by_dt_step_other_run by exact Ho. apply Hres.
Qed.

(** C3, as the code has it. The batch call of the catalogue client drops
    no request silently: an iteration of its loop that completes has either
    extended the mapping by a non-empty selection taken from one of the two
    answers to the request, or appended the request to [remaining_dates] and
    left the mapping as it was. The list [remaining_dates] is not part of the
    batch result: the call returns the mapping alone and reports the list
    through one warning record of the log, written after the loop when the
    list is not empty. A request whose two queries both come back empty is
    appended, and a batch of such requests returns the empty mapping and logs
    all of them. The requests are those from which the datetimes of an
    iteration can be computed. *)
Theorem unresolved_requests_are_logged :
  (forall orbit_type t0m t1m st m dt w st' w',
     Range.catalogue_request t0m t1m (m, dt) ->
     query_orbit_by_dt_step orbit_type t0m t1m st m dt w = (Ok st', w') ->
     (remaining_dates st' = remaining_dates st ++ [(m, dt)]
      /\ query st' = query st)
     \/ (remaining_dates st' = remaining_dates st
         /\ exists q products sel,
              (q = precise_query t0m t1m m dt \/ q = restituted_query m dt)
              /\ api_query q = Ok products
              /\ sel <> [] /\ incl sel products
              /\ query st' = dict_update (query st) sel))
  /\ (forall missions orbit_dts orbit_type t0m t1m w w1 st,
        Forall (Range.catalogue_request t0m t1m) (combine missions orbit_dts) ->
        query_orbit_by_dt_loop orbit_type t0m t1m (combine missions orbit_dts)
                               (mkLocals [] []) w
        = (Ok st, w1) ->
        query_orbit_by_dt missions orbit_dts orbit_type t0m t1m w
        = (Ok (query st),
           match remaining_dates st with
           | [] => w1
           | _ :: _ =>
               Scihub.mkWorld
                 (queries w1)
                 (Scihub.log w1 ++ [LogWarningNotFound (remaining_dates st)])
           end))
  /\ (forall t0m t1m st m dt w,
        Range.catalogue_request t0m t1m (m, dt) ->
        unanswered t0m t1m (m, dt) ->
        query_orbit_by_dt_step "precise" t0m t1m st m dt w
        = (Ok (mkLocals (remaining_dates st ++ [(m, dt)]) (query st)),
           asked (restituted_query m dt)
                 (asked (precise_query t0m t1m m dt) w)))
  /\ (forall missions orbit_dts t0m t1m w,
        combine missions orbit_dts <> [] ->
        Forall (Range.catalogue_request t0m t1m) (combine missions orbit_dts) ->
        Forall (unanswered t0m t1m) (combine missions orbit_dts) ->
        exists w1,
          query_orbit_by_dt missions orbit_dts "precise" t0m t1m w
          = (Ok [],
             Scihub.mkWorld
               (queries w1)
               (Scihub.log w1
                  ++ [LogWarningNotFound (combine missions orbit_dts)]))).
Proof.
  split; [|split; [|split]].
  - intros orbit_type t0m t1m st m dt w st' w' _ H.
    exact (query_orbit_by_dt_step_outcome _ _ _ _ _ _ _ _ _ H).
  - intros missions orbit_dts orbit_type t0m t1m w w1 st _ H.
    now apply query_orbit_by_dt_returns_query.
  - intros t0m t1m st m dt w _ H.
    now apply query_orbit_by_dt_step_unanswered.
  - intros missions orbit_dts t0m t1m w Hne _ Hall.
    destruct (query_orbit_by_dt_loop_unanswered t0m t1m _ (mkLocals [] []) w Hall)
      as [w1 Hloop].
    exists w1. rewrite (query_orbit_by_dt_returns_query _ _ _ _ _ _ _ _ Hloop).
    simpl. now destruct (combine missions orbit_dts).
Qed.
End UnresolvedBatch.

(** C3 on the code. With an empty catalogue the batch of one request returns
    the empty mapping, the same value as the batch of no request: the request
    that failed is in the log record and nowhere in the returned value, so
    no reading of the returned value gives the list of unresolved
    requests. *)
Lemma unresolved_not_returned_counterexample :
  @Scihub.query_orbit_by_dt ProductsModel.products Samples.catalogue_empty
    ["S1A"] [Samples.noon_0226] "precise" Scihub.T0 Scihub.T1 Samples.quiet
  = (Ok [],
     Scihub.mkWorld
       [Scihub.precise_query Scihub.T0 Scihub.T1 "S1A" Samples.noon_0226;
        Scihub.restituted_query "S1A" Samples.noon_0226]
       [Scihub.LogDebugQuery
          (Scihub.precise_query Scihub.T0 Scihub.T1 "S1A" Samples.noon_0226);
        Scihub.LogDebugQuery (Scihub.restituted_query "S1A" Samples.noon_0226);
        Scihub.LogWarningNotFound [("S1A", Samples.noon_0226)]])
  /\ fst (@Scihub.query_orbit_by_dt ProductsModel.products
            Samples.catalogue_empty [] [] "precise" Scihub.T0 Scihub.T1
            Samples.quiet)
     = Ok []
  /\ ~ (exists report : dict Scihub.product
                        -> list (string * Datetime.datetime),
         forall missions orbit_dts st w1,
           @Scihub.query_orbit_by_dt_loop ProductsModel.products
             Samples.catalogue_empty "precise" Scihub.T0 Scihub.T1
             (combine missions orbit_dts) (Scihub.mkLocals [] []) Samples.quiet
           = (Ok st, w1) ->
           exists value,
             fst (@Scihub.query_orbit_by_dt ProductsModel.products
                    Samples.catalogue_empty missions orbit_dts "precise"
                    Scihub.T0 Scihub.T1 Samples.quiet)
             = Ok value
             /\ report value = Scihub.remaining_dates st).
Proof.
  split; [vm_compute; reflexivity|].
  split; [vm_compute; reflexivity|].
  intros [report H].
  destruct (H [] [] (Scihub.mkLocals [] []) Samples.quiet eq_refl)
    as (v0 & Hv0 & Hr0).
  destruct (H ["S1A"] [Samples.noon_0226]
              (Scihub.mkLocals [("S1A", Samples.noon_0226)] [])
              (Scihub.asked
                 (Scihub.restituted_query "S1A" Samples.noon_0226)
                 (Scihub.asked
                    (Scihub.precise_query Scihub.T0 Scihub.T1 "S1A"
                                          Samples.noon_0226)
                    Samples.quiet))
              eq_refl)
    as (v1 & Hv1 & Hr1).
  vm_compute in Hv0, Hv1. injection Hv0 as <-. injection Hv1 as <-.
  simpl in Hr0, Hr1. rewrite Hr0 in Hr1. discriminate.
Qed.

(** Two requests on an empty catalogue are both recorded and logged; a
    request that the restituted answer of the catalogue resolves leaves
    [remaining_dates] as it was and enters the mapping. *)
Lemma unresolved_requests_are_logged_witness :
  (exists w1,
     @Scihub.query_orbit_by_dt ProductsModel.products Samples.catalogue_empty
       ["S1A"; "S1B"] [Samples.noon_0226; Samples.t_0226] "precise"
       Scihub.T0 Scihub.T1 Samples.quiet
     = (Ok [],
        Scihub.mkWorld
          (Scihub.queries w1)
          (Scihub.log w1
             ++ [Scihub.LogWarningNotFound
                   [("S1A", Samples.noon_0226); ("S1B", Samples.t_0226)]])))
  /\ @Scihub.query_orbit_by_dt_step ProductsModel.products
       Samples.catalogue_empty "precise" Scihub.T0 Scihub.T1
       (Scihub.mkLocals [] []) "S1A" Samples.noon_0226 Samples.quiet
     = (Ok (Scihub.mkLocals [("S1A", Samples.noon_0226)] []),
        Scihub.asked
          (Scihub.restituted_query "S1A" Samples.noon_0226)
          (Scihub.asked
             (Scihub.precise_query Scihub.T0 Scihub.T1 "S1A" Samples.noon_0226)
             Samples.quiet))
  /\ ((Scihub.remaining_dates
         (Scihub.mkLocals [] [Catalogue.entry "uuid-4" Samples.res_noon])
       = [] ++ [("S1A", Samples.noon_0226)]
       /\ Scihub.query
            (Scihub.mkLocals [] [Catalogue.entry "uuid-4" Samples.res_noon])
          = [])
      \/ (Scihub.remaining_dates
            (Scihub.mkLocals [] [Catalogue.entry "uuid-4" Samples.res_noon])
          = []
          /\ exists q products sel,
               (q = Scihub.precise_query Scihub.T0 Scihub.T1 "S1A"
                      Samples.noon_0226
                \/ q = Scihub.restituted_query "S1A" Samples.noon_0226)
               /\ @Scihub.api_query Samples.catalogue_restituted q = Ok products
               /\ sel <> [] /\ incl sel products
               /\ Scihub.query
                    (Scihub.mkLocals []
                       [Catalogue.entry "uuid-4" Samples.res_noon])
                  = dict_update [] sel)).
Proof.
  pose proof (@unresolved_requests_are_logged ProductsModel.products
                Samples.catalogue_empty)
    as (_ & _ & Hstep & Hbatch).
  pose proof (@unresolved_requests_are_logged ProductsModel.products
                Samples.catalogue_restituted)
    as (Houtcome & _).
  split; [|split].
  - apply (Hbatch ["S1A"; "S1B"] [Samples.noon_0226; Samples.t_0226]).
    + discriminate.
    + repeat constructor; apply Z.leb_le; vm_compute; reflexivity.
    + repeat constructor.
  - apply (Hstep Scihub.T0 Scihub.T1 (Scihub.mkLocals [] []) "S1A"
                 Samples.noon_0226 Samples.quiet).
    + solve_in_range.
    + repeat constructor.
  - apply (Houtcome "precise" Scihub.T0 Scihub.T1 (Scihub.mkLocals [] [])
                    "S1A" Samples.noon_0226 Samples.quiet
                    (Scihub.mkLocals []
                       [Catalogue.entry "uuid-4" Samples.res_noon])
                    (Scihub.asked
                       (Scihub.restituted_query "S1A" Samples.noon_0226)
                       (Scihub.asked
                          (Scihub.precise_query Scihub.T0 Scihub.T1 "S1A"
                                                Samples.noon_0226)
                          Samples.quiet))).
    + solve_in_range.
    + vm_compute. reflexivity.
Defined.
